(** * claude-code-sdk-go: protocol parser and subprocess transport

    A shallow embedding of the Go packages [internal/types],
    [internal/errors], [internal/parser], [internal/cli] and
    [internal/transport], and of [Client.Query], together with the
    properties of the parser, of the argument construction and of the
    message stream.

    Conventions.
    - A Go [string] is a [string] of bytes; [len] is the byte count, in [Z].
    - A Go [int] is a 64-bit integer, kept in [Z].
    - A Go [float64] is an IEEE 754 binary64 value ([spec_float]).
    - A Go [map[string]T] is a [gmap string T]; a nil map reads like the
      empty map, so only [ParseMessage], which compares its argument with
      nil, takes an [option].
    - A function returning [(T, error)] returns a [result T]. *)

From Stdlib Require Import ZArith Floats.SpecFloat Strings.Ascii.
From stdpp Require Import gmap strings list fin_maps pretty sorting.

#[local] Set Warnings "-register-all".
#[local] Open Scope string_scope.
#[local] Open Scope list_scope.
#[local] Open Scope Z_scope.

(** ** Go values *)

Abbreviation float64 := spec_float.

(** The dynamic values an [any] can hold, as far as the SDK inspects them.
    [NilSlice] is the nil [[]any]; [Other] stands for every dynamic type
    the SDK never asserts (for instance [int32] or [[]string]). *)
Inductive any : Type :=
| Nil
| Bool (b : bool)
| Int (n : Z)
| Int64 (n : Z)
| Float64 (f : float64)
| Str (s : string)
| Slice (l : list any)
| NilSlice
| Map (m : gmap string any)
| Other (dynamicType : string).

(** [m[k]]: the zero value (nil) when the key is absent. *)
Definition index (m : gmap string any) (k : string) : any :=
  default Nil (m !! k).

(** Type assertions [v.(T)] in their comma-ok form. *)
Definition assert_string (v : any) : option string :=
  match v with Str s => Some s | _ => None end.

Definition assert_bool (v : any) : option bool :=
  match v with Bool b => Some b | _ => None end.

Definition assert_float64 (v : any) : option float64 :=
  match v with Float64 f => Some f | _ => None end.

Definition assert_map (v : any) : option (gmap string any) :=
  match v with Map m => Some m | _ => None end.

(** [v.([]any)]: the asserted slice is [None] when it is the nil slice. *)
Definition assert_slice (v : any) : option (option (list any)) :=
  match v with
  | Slice l => Some (Some l)
  | NilSlice => Some None
  | _ => None
  end.

(** [range] over a slice: the nil slice has no elements. *)
Definition elements (s : option (list any)) : list any := default [] s.

(** [len(s)] of a string, in bytes. *)
Definition len (s : string) : Z := Z.of_nat (String.length s).

(** ** Integers and floats *)

Definition minInt : Z := - 2 ^ 63.
Definition maxInt : Z := 2 ^ 63 - 1.

(** The integer a finite float truncates to (fraction discarded), if any. *)
Definition truncate (f : float64) : option Z :=
  match f with
  | S754_zero _ => Some 0
  | S754_finite s m e =>
      let a := if 0 <=? e then Z.pos m * 2 ^ e else Z.pos m / 2 ^ (- e) in
      Some (if s then - a else a)
  | S754_infinity _ | S754_nan => None
  end.

(** The float64 of a JSON integer literal. *)
Definition float64_of_Z (z : Z) : float64 := binary_normalize 53 1024 z 0 false.

(** ** What is left to the Go runtime and standard library *)

Inductive unmarshal_result :=
| UnmarshalError (e : string)
| Unmarshalled (data : option (gmap string any)).

Class GoRuntime := {
  (** [json.Unmarshal([]byte(line), &data)] with [data map[string]any]:
      an error for text that is not JSON or is not an object, nil for
      the literal null, the decoded object otherwise. *)
  json_Unmarshal : string -> unmarshal_result;
  (** The string literal [encoding/json] writes for a Go string. *)
  json_quote : string -> string;
  (** [int(f)] when [f] has no integer value in range: the language leaves
      the result to the implementation. *)
  int_of_unrepresentable : float64 -> Z;
  (** [filepath.Join]. *)
  filepath_Join : list string -> string
}.

Section Conversions.
Context `{GoRuntime}.

(** [int(f)] for a [float64]. *)
Definition int_of_float64 (f : float64) : Z :=
  match truncate f with
  | Some z => if (minInt <=? z) && (z <=? maxInt) then z
              else int_of_unrepresentable f
  | None => int_of_unrepresentable f
  end.
End Conversions.

(** ** Package types *)

Module types.

Inductive MessageType := MessageTypeUser | MessageTypeAssistant
                       | MessageTypeSystem | MessageTypeResult.

Inductive ContentBlockType := ContentBlockTypeText | ContentBlockTypeToolUse
                            | ContentBlockTypeToolResult.

(** The three content blocks, named by their constructors in the source. *)
Inductive ContentBlock :=
| NewTextBlock (text : string)
| NewToolUseBlock (id name : string) (input : gmap string any)
| NewToolResultBlock (toolUseID : string) (content : any) (isError : option bool).

Definition BlockType (b : ContentBlock) : ContentBlockType :=
  match b with
  | NewTextBlock _ => ContentBlockTypeText
  | NewToolUseBlock _ _ _ => ContentBlockTypeToolUse
  | NewToolResultBlock _ _ _ => ContentBlockTypeToolResult
  end.

Record ResultMessage := {
  Subtype : string;
  DurationMs : Z;
  DurationAPIMs : Z;
  IsError : bool;
  NumTurns : Z;
  SessionID : string;
  TotalCostUSD : option float64;
  Usage : option (gmap string any);
  Result : option string
}.

Definition NewResultMessage (subtype : string) (durationMs durationAPIMs numTurns : Z)
    (isError : bool) (sessionID : string) : ResultMessage :=
  {| Subtype := subtype; DurationMs := durationMs; DurationAPIMs := durationAPIMs;
     IsError := isError; NumTurns := numTurns; SessionID := sessionID;
     TotalCostUSD := None; Usage := None; Result := None |}.

Definition set_TotalCostUSD (m : ResultMessage) (c : float64) : ResultMessage :=
  {| Subtype := Subtype m; DurationMs := DurationMs m; DurationAPIMs := DurationAPIMs m;
     IsError := IsError m; NumTurns := NumTurns m; SessionID := SessionID m;
     TotalCostUSD := Some c; Usage := Usage m; Result := Result m |}.

Definition set_Usage (m : ResultMessage) (u : gmap string any) : ResultMessage :=
  {| Subtype := Subtype m; DurationMs := DurationMs m; DurationAPIMs := DurationAPIMs m;
     IsError := IsError m; NumTurns := NumTurns m; SessionID := SessionID m;
     TotalCostUSD := TotalCostUSD m; Usage := Some u; Result := Result m |}.

Definition set_Result (m : ResultMessage) (r : string) : ResultMessage :=
  {| Subtype := Subtype m; DurationMs := DurationMs m; DurationAPIMs := DurationAPIMs m;
     IsError := IsError m; NumTurns := NumTurns m; SessionID := SessionID m;
     TotalCostUSD := TotalCostUSD m; Usage := Usage m; Result := Some r |}.

(** The [Message] interface over its four implementations. *)
Inductive Message :=
| NewUserMessage (content : string)
| NewAssistantMessage (content : list ContentBlock)
| NewSystemMessage (subtype : string) (data : gmap string any)
| OfResultMessage (m : ResultMessage).

Definition Type_ (m : Message) : MessageType :=
  match m with
  | NewUserMessage _ => MessageTypeUser
  | NewAssistantMessage _ => MessageTypeAssistant
  | NewSystemMessage _ _ => MessageTypeSystem
  | OfResultMessage _ => MessageTypeResult
  end.

(** The string a [MessageType] or [ContentBlockType] constant stands for. *)
Definition MessageType_string (t : MessageType) : string :=
  match t with
  | MessageTypeUser => "user"
  | MessageTypeAssistant => "assistant"
  | MessageTypeSystem => "system"
  | MessageTypeResult => "result"
  end.

Definition ContentBlockType_string (t : ContentBlockType) : string :=
  match t with
  | ContentBlockTypeText => "text"
  | ContentBlockTypeToolUse => "tool_use"
  | ContentBlockTypeToolResult => "tool_result"
  end.

Record McpServerConfig := {
  Type_mcp : string;
  Command : string;
  Args : list string;
  Env : gmap string string;
  URL : string;
  Headers : gmap string string
}.

Record QueryOptions := {
  AllowedTools : list string;
  MaxThinkingTokens : Z;
  SystemPrompt : string;
  AppendSystemPrompt : string;
  McpTools : list string;
  McpServers : gmap string McpServerConfig;
  PermissionMode : string;
  ContinueConversation : bool;
  Resume : string;
  MaxTurns : Z;
  DisallowedTools : list string;
  Model : string;
  PermissionPromptToolName : string;
  CWD : string
}.

Record ClientOptions := { CLIPath : string; ClientCWD : string }.

End types.

(** ** Package errors *)

Module errors.

(** The base error: a message and the text of the wrapped cause. *)
Record ClaudeSDKError := NewClaudeSDKError { message : string; cause : option string }.

Inductive error :=
| CLIConnectionError (base : ClaudeSDKError)
| CLINotFoundError (base : ClaudeSDKError) (CLIPath : string)
| ProcessError (base : ClaudeSDKError) (ExitCode : Z) (Stderr : string)
| CLIJSONDecodeError (base : ClaudeSDKError) (RawData : string)
| MessageParseError (base : ClaudeSDKError) (RawData : any).

Definition base_of (e : error) : ClaudeSDKError :=
  match e with
  | CLIConnectionError b | CLINotFoundError b _ | ProcessError b _ _
  | CLIJSONDecodeError b _ | MessageParseError b _ => b
  end.

Definition Error (e : error) : string :=
  match cause (base_of e) with
  | Some c => message (base_of e) +:+ ": " +:+ c
  | None => message (base_of e)
  end.

Definition NewCLIConnectionError (msg : string) (c : option string) : error :=
  CLIConnectionError (NewClaudeSDKError msg c).

Definition NewCLINotFoundError (cliPath : string) (c : option string) : error :=
  CLINotFoundError
    (NewClaudeSDKError ("Claude Code CLI not found at path: " +:+ cliPath) c) cliPath.

Definition NewProcessError (msg : string) (exitCode : Z) (stderr : string)
    (c : option string) : error :=
  ProcessError (NewClaudeSDKError msg c) exitCode stderr.

Definition NewMessageParseError (msg : string) (rawData : any) (c : option string) : error :=
  MessageParseError (NewClaudeSDKError msg c) rawData.

Definition is_MessageParseError (e : error) : bool :=
  match e with MessageParseError _ _ => true | _ => false end.

End errors.

Inductive result (A : Type) :=
| Ok (a : A)
| Err (e : errors.error).
Arguments Ok {A} a.
Arguments Err {A} e.

(** [v, ok := e; if !ok { return nil, err }] *)
Notation "'let?' x := e 'else' err 'in' k" :=
  (match e with Some x => k | None => Err err end)
  (at level 10, x name, e at level 100, err at level 100, k at level 200,
   format "'[v' 'let?'  x  :=  e  'else'  err  'in' '/' k ']'").

(** ** Package parser *)

Module parser.
Import types errors.

Section Parser.
Context `{GoRuntime}.

Definition getIntField (data : gmap string any) (field : string) : Z * bool :=
  match data !! field with
  | None => (0, false)
  | Some val =>
      match val with
      | Int v => (v, true)
      | Int64 v => (v, true)
      | Float64 v => (int_of_float64 v, true)
      | _ => (0, false)
      end
  end.

(** The loop of [parseUserMessage] over the content array: the string
    content of the first [tool_result] block that has one. *)
Fixpoint toolResultContent (contentArray : list any) : option string :=
  match contentArray with
  | [] => None
  | blockData :: rest =>
      match assert_map blockData with
      | Some blockMap =>
          match assert_string (index blockMap "type") with
          | Some blockType =>
              if String.eqb blockType "tool_result" then
                match assert_string (index blockMap "content") with
                | Some toolContent => Some toolContent
                | None => toolResultContent rest
                end
              else toolResultContent rest
          | None => toolResultContent rest
          end
      | None => toolResultContent rest
      end
  end.

Definition parseUserMessage (data : gmap string any) : result Message :=
  let direct :=
    match assert_string (index data "content") with
    | Some content => Ok (NewUserMessage content)
    | None =>
        Err (NewMessageParseError
               "Missing required field 'content' in user message" (Map data) None)
    end in
  match assert_map (index data "message") with
  | Some message =>
      match assert_string (index message "content") with
      | Some content => Ok (NewUserMessage content)
      | None =>
          match assert_slice (index message "content") with
          | Some contentArray =>
              match toolResultContent (elements contentArray) with
              | Some toolContent => Ok (NewUserMessage toolContent)
              | None => Ok (NewUserMessage "[Tool result message]")
              end
          | None => direct
          end
      end
  | None => direct
  end.

Definition parseContentBlock (blockData : gmap string any) : result ContentBlock :=
  let? blockType := assert_string (index blockData "type")
    else NewMessageParseError "Content block missing 'type' field" (Map blockData) None in
  if String.eqb blockType "text" then
    let? text := assert_string (index blockData "text")
      else NewMessageParseError "Text block missing 'text' field" (Map blockData) None in
    Ok (NewTextBlock text)
  else if String.eqb blockType "tool_use" then
    let? id := assert_string (index blockData "id")
      else NewMessageParseError "Tool use block missing 'id' field" (Map blockData) None in
    let? name := assert_string (index blockData "name")
      else NewMessageParseError "Tool use block missing 'name' field" (Map blockData) None in
    let? input := assert_map (index blockData "input")
      else NewMessageParseError "Tool use block missing 'input' field" (Map blockData) None in
    Ok (NewToolUseBlock id name input)
  else if String.eqb blockType "tool_result" then
    let? toolUseID := assert_string (index blockData "tool_use_id")
      else NewMessageParseError
             "Tool result block missing 'tool_use_id' field" (Map blockData) None in
    let content := index blockData "content" in
    let isError :=
      match blockData !! "is_error" with
      | Some isErrorVal => assert_bool isErrorVal
      | None => None
      end in
    Ok (NewToolResultBlock toolUseID content isError)
  else
    Err (NewMessageParseError
           ("Unknown content block type: " +:+ blockType) (Map blockData) None).

(** The loop of [parseAssistantMessage]: blocks are appended one by
    one, and the first element that fails ends the parse. *)
Fixpoint parseBlocks (data : gmap string any) (contentData : list any)
    (contentBlocks : list ContentBlock) : result (list ContentBlock) :=
  match contentData with
  | [] => Ok contentBlocks
  | blockData :: rest =>
      let? blockMap := assert_map blockData
        else NewMessageParseError "Invalid content block format" (Map data) None in
      match parseContentBlock blockMap with
      | Err err => Err err
      | Ok block => parseBlocks data rest (contentBlocks ++ [block])
      end
  end.

Definition parseAssistantMessage (data : gmap string any) : result Message :=
  let contentData : option (list any) := None in
  let contentData :=
    match assert_map (index data "message") with
    | Some message =>
        match assert_slice (index message "content") with
        | Some content => content
        | None => contentData
        end
    | None => contentData
    end in
  let contentData :=
    match contentData with
    | None =>
        match assert_slice (index data "content") with
        | Some content => content
        | None => contentData
        end
    | Some _ => contentData
    end in
  match contentData with
  | None =>
      Err (NewMessageParseError
             "Missing required field 'content' in assistant message" (Map data) None)
  | Some contentData =>
      match parseBlocks data contentData [] with
      | Err err => Err err
      | Ok contentBlocks => Ok (NewAssistantMessage contentBlocks)
      end
  end.

Definition parseSystemMessage (data : gmap string any) : result Message :=
  let? subtype := assert_string (index data "subtype")
    else NewMessageParseError
           "Missing required field 'subtype' in system message" (Map data) None in
  Ok (NewSystemMessage subtype data).

Definition parseResultMessage (data : gmap string any) : result Message :=
  let? subtype := assert_string (index data "subtype")
    else NewMessageParseError
           "Missing required field 'subtype' in result message" (Map data) None in
  let '(durationMs, ok) := getIntField data "duration_ms" in
  if negb ok then
    Err (NewMessageParseError
           "Missing required field 'duration_ms' in result message" (Map data) None)
  else
  let '(durationAPIMs, ok) := getIntField data "duration_api_ms" in
  if negb ok then
    Err (NewMessageParseError
           "Missing required field 'duration_api_ms' in result message" (Map data) None)
  else
  let? isError := assert_bool (index data "is_error")
    else NewMessageParseError
           "Missing required field 'is_error' in result message" (Map data) None in
  let '(numTurns, ok) := getIntField data "num_turns" in
  if negb ok then
    Err (NewMessageParseError
           "Missing required field 'num_turns' in result message" (Map data) None)
  else
  let? sessionID := assert_string (index data "session_id")
    else NewMessageParseError
           "Missing required field 'session_id' in result message" (Map data) None in
  let message :=
    NewResultMessage subtype durationMs durationAPIMs numTurns isError sessionID in
  let message :=
    match data !! "total_cost_usd" with
    | Some totalCostUSD =>
        match assert_float64 totalCostUSD with
        | Some cost => set_TotalCostUSD message cost
        | None => message
        end
    | None => message
    end in
  let message :=
    match data !! "usage" with
    | Some usage =>
        match assert_map usage with
        | Some usageMap => set_Usage message usageMap
        | None => message
        end
    | None => message
    end in
  let message :=
    match data !! "result" with
    | Some result =>
        match assert_string result with
        | Some resultStr => set_Result message resultStr
        | None => message
        end
    | None => message
    end in
  Ok (OfResultMessage message).

Definition ParseMessage (data : option (gmap string any)) : result Message :=
  match data with
  | None =>
      Err (NewMessageParseError
             "Invalid message data type (expected map, got nil)" (Map ∅) None)
  | Some data =>
      let? messageType := assert_string (index data "type")
        else NewMessageParseError "Message missing 'type' field" (Map data) None in
      if String.eqb messageType "user" then parseUserMessage data
      else if String.eqb messageType "assistant" then parseAssistantMessage data
      else if String.eqb messageType "system" then parseSystemMessage data
      else if String.eqb messageType "result" then parseResultMessage data
      else Err (NewMessageParseError
                  ("Unknown message type: " +:+ messageType) (Map data) None)
  end.

End Parser.
End parser.

(** ** Strings, paths and exit statuses of the standard library *)

Definition dquote : string := String "034"%char "".
Definition newline : string := String "010"%char "".

(** White space as [strings.TrimSpace] sees it among the ASCII bytes. *)
Definition isSpace (c : ascii) : bool :=
  let n := N_of_ascii c in
  (((9 <=? n) && (n <=? 13)) || (n =? 32))%N.

Fixpoint trimLeft (s : string) : string :=
  match s with
  | String c rest => if isSpace c then trimLeft rest else s
  | EmptyString => EmptyString
  end.

Fixpoint trimRight (s : string) : string :=
  match s with
  | String c rest =>
      match trimRight rest with
      | EmptyString => if isSpace c then EmptyString else String c EmptyString
      | rest' => String c rest'
      end
  | EmptyString => EmptyString
  end.

(** [strings.TrimSpace], on byte strings whose white space is ASCII. *)
Definition TrimSpace (s : string) : string := trimRight (trimLeft s).

(** [strings.Join]. *)
Definition Join (elems : list string) (sep : string) : string := String.concat sep elems.

Definition isPathSeparator (c : ascii) : bool := Ascii.eqb c "/"%char.

(** The path without its trailing separators. *)
Fixpoint stripTrailingSlashes (path : string) : string :=
  match path with
  | String c rest =>
      match stripTrailingSlashes rest with
      | EmptyString => if isPathSeparator c then EmptyString else String c EmptyString
      | rest' => String c rest'
      end
  | EmptyString => EmptyString
  end.

Fixpoint hasSeparator (path : string) : bool :=
  match path with
  | String c rest => isPathSeparator c || hasSeparator rest
  | EmptyString => false
  end.

(** What follows the last separator. *)
Fixpoint lastElement (path : string) : string :=
  match path with
  | String c rest =>
      if hasSeparator rest then lastElement rest
      else if isPathSeparator c then rest
      else path
  | EmptyString => EmptyString
  end.

(** [filepath.Base] on Unix. *)
Definition Base (path : string) : string :=
  if String.eqb path "" then "."
  else
    let path := lastElement (stripTrailingSlashes path) in
    if String.eqb path "" then "/" else path.

(** [syscall.WaitStatus.ExitStatus] on Linux: the exit code of a process
    that exited, -1 for one that was signalled or stopped. *)
Definition ExitStatus (w : Z) : Z :=
  if Z.land w 127 =? 0 then Z.land (Z.shiftr w 8) 255 else -1.

(** ** The operating system, as the SDK meets it *)

Inductive stat_result := StatError (e : string) | FileInfo (isDir : bool).

(** What [cmd.Wait] returns: nil, an [*exec.ExitError] (with the wait
    status its [Sys()] holds, if it is one), or another error. *)
Inductive wait_result :=
| WaitNil
| WaitExitError (status : option Z)
| WaitOtherError (e : string).

(** What reading a pipe to its end delivers: the lines, and the error that
    ended the reading if it was not the end of the file. *)
Record Reader := { lines : list string; failure : option string }.

(** A started process as the transport observes it. [stderrTimer] is the
    number of stderr lines received before the collection timer fires
    ([None] when stderr closes first). *)
Record Process := {
  Stdout : Reader;
  Stderr : Reader;
  stderrTimer : option nat;
  Wait : wait_result
}.

(** Package os/exec: a command, and the process once it has started. *)
Module exec.
Record Cmd := {
  Path : string;
  Args : list string;
  Dir : string;
  Env : list string;
  Process : option Process
}.
End exec.

Record OS := {
  LookPath : string -> option string;
  UserHomeDir : option string;
  Stat : string -> stat_result;
  Environ : list string;
  StdinPipe : option string;
  StdoutPipe : option string;
  StderrPipe : option string;
  Start : exec.Cmd -> string + Process
}.

(** A [context.Context], as one goroutine observes it: [None] is never
    cancelled; [Some n] is found live by the next [n] looks at
    [ctx.Done()] and cancelled by every later one. *)
Definition Context := option nat.

Definition Done (ctx : Context) : bool * Context :=
  match ctx with
  | None => (false, None)
  | Some O => (true, Some O)
  | Some (S n) => (false, Some n)
  end.

(** ** Package cli *)

Module cli.
Import errors.

Section FindCLI.
Context `{GoRuntime}.

Definition fileExists (os : OS) (path : string) : bool :=
  match Stat os path with
  | StatError _ => false
  | FileInfo isDir => negb isDir
  end.

Definition FindCLI (os : OS) : result string :=
  match LookPath os "claude" with
  | Some cli => Ok cli
  | None =>
      match UserHomeDir os with
      | None => Err (NewCLINotFoundError "" (Some "$HOME is not defined"))
      | Some homeDir =>
          let locations :=
            [ filepath_Join [homeDir; ".npm-global"; "bin"; "claude"];
              "/usr/local/bin/claude";
              filepath_Join [homeDir; ".local"; "bin"; "claude"];
              filepath_Join [homeDir; "node_modules"; ".bin"; "claude"];
              filepath_Join [homeDir; ".yarn"; "bin"; "claude"] ] in
          match List.find (fileExists os) locations with
          | Some path => Ok path
          | None =>
              match LookPath os "node" with
              | None =>
                  Err (NewCLINotFoundError ""
                    (Some ("Claude Code requires Node.js, which is not installed."
                           +:+ newline +:+ newline
                           +:+ "Install Node.js from: https://nodejs.org/"
                           +:+ newline +:+ newline
                           +:+ "After installing Node.js, install Claude Code:" +:+ newline
                           +:+ "  npm install -g @anthropic-ai/claude-code")))
              | Some _ =>
                  Err (NewCLINotFoundError ""
                    (Some ("Claude Code not found. Install with:" +:+ newline
                           +:+ "  npm install -g @anthropic-ai/claude-code"
                           +:+ newline +:+ newline
                           +:+ "If already installed locally, try:" +:+ newline
                           +:+ "  export PATH=" +:+ dquote
                           +:+ "$HOME/node_modules/.bin:$PATH" +:+ dquote
                           +:+ newline +:+ newline
                           +:+ "Or specify the path when creating transport:" +:+ newline
                           +:+ "  NewClient(&ClientOptions{CLIPath: " +:+ dquote
                           +:+ "/path/to/claude" +:+ dquote +:+ "})")))
              end
          end
      end
  end.
End FindCLI.
End cli.

(** ** Package bufio, as far as the transport uses it *)

Definition MaxScanTokenSize : Z := 64 * 1024.
Definition ErrTooLong : string := "bufio.Scanner: token too long".

(** A line without its trailing carriage return. *)
Fixpoint dropCR (line : string) : string :=
  match line with
  | String c EmptyString => if Ascii.eqb c "013"%char then EmptyString else line
  | String c rest => String c (dropCR rest)
  | EmptyString => EmptyString
  end.

(** A [bufio.Scanner] made by [bufio.NewScanner], never given a larger
    buffer, run to its end: the tokens [Scan] yields and what [Err]
    reports afterwards. A line that does not fit the buffer of
    [MaxScanTokenSize] bytes stops the scanner for good. *)
Fixpoint scanLines (lines : list string) (failure : option string)
    : list string * option string :=
  match lines with
  | [] => ([], failure)
  | line :: rest =>
      if MaxScanTokenSize <=? len line then ([], Some ErrTooLong)
      else
        let '(tokens, err) := scanLines rest failure in
        (dropCR line :: tokens, err)
  end.

(** ** Package transport *)

Module transport.
Import types errors.

Definition maxBufferSize : Z := 1024 * 1024.
Definition maxStderrSize : Z := 10 * 1024 * 1024.
(** [30 * time.Second], as [%v] prints it. *)
Definition stderrTimeout : string := "30s".

Record SubprocessTransport := {
  cliPath : string;
  cwd : string;
  cmd : option exec.Cmd;
  stdin : bool;
  stdout : option Reader;
  stderr : option Reader
}.

Definition NewSubprocessTransport (cliPath cwd : string) : SubprocessTransport :=
  {| cliPath := cliPath; cwd := cwd; cmd := None;
     stdin := false; stdout := None; stderr := None |}.

(** [select { case messageCh <- m: case <-ctx.Done(): return }]. The
    receiver is taken to drain the channel, so a send only fails to go
    through when the context is found cancelled. *)
Definition send (ctx : Context) (messageCh : list Message) (m : Message)
    : option (Context * list Message) :=
  let '(done, ctx) := Done ctx in
  if done then None else Some (ctx, messageCh ++ [m]).

Inductive line_action := Continue | Send (m : Message).

Inductive loop_end :=
| Returned (messageCh : list Message)
| Exhausted (ctx : Context) (messageCh : list Message).

Section Transport.
Context `{GoRuntime}.

(** [json.Marshal] of a [[]string], of a [map[string]string] (keys in
    byte order) and of a [McpServerConfig] (every field omitempty). *)
Definition marshalStrings (l : list string) : string :=
  "[" +:+ Join (json_quote <$> l) "," +:+ "]".

Definition sortedByKey {A} (m : gmap string A) : list (string * A) :=
  merge_sort (λ x y, String.leb x.1 y.1) (map_to_list m).

Definition marshalStringMap (m : gmap string string) : string :=
  "{" +:+ Join ((λ kv, json_quote kv.1 +:+ ":" +:+ json_quote kv.2) <$> sortedByKey m) ","
      +:+ "}".

Definition field (name value : string) : string :=
  dquote +:+ name +:+ dquote +:+ ":" +:+ value.

Definition marshalMcpServerConfig (c : McpServerConfig) : string :=
  "{" +:+ Join
    ((if String.eqb (Type_mcp c) "" then [] else [field "type" (json_quote (Type_mcp c))])
     ++ (if String.eqb (Command c) "" then [] else [field "command" (json_quote (Command c))])
     ++ (match Args c with [] => [] | _ => [field "args" (marshalStrings (Args c))] end)
     ++ (if decide (Env c = ∅) then [] else [field "env" (marshalStringMap (Env c))])
     ++ (if String.eqb (URL c) "" then [] else [field "url" (json_quote (URL c))])
     ++ (if decide (Headers c = ∅) then []
         else [field "headers" (marshalStringMap (Headers c))])) ","
  +:+ "}".

Definition marshalMcpServers (m : gmap string McpServerConfig) : string :=
  "{" +:+ Join ((λ kv, json_quote kv.1 +:+ ":" +:+ marshalMcpServerConfig kv.2)
                  <$> sortedByKey m) ","
      +:+ "}".

(** [json.Marshal(map[string]any{"mcpServers": servers})]. *)
Definition marshalMcpConfig (servers : gmap string McpServerConfig) : string :=
  "{" +:+ json_quote "mcpServers" +:+ ":" +:+ marshalMcpServers servers +:+ "}".

Definition buildCommand (options : option QueryOptions) (prompt : string) : list string :=
  let args := ["--output-format"; "stream-json"; "--verbose"] in
  let args :=
    match options with
    | Some options =>
        let args :=
          if negb (String.eqb (SystemPrompt options) "")
          then args ++ ["--system-prompt"; SystemPrompt options] else args in
        let args :=
          if negb (String.eqb (AppendSystemPrompt options) "")
          then args ++ ["--append-system-prompt"; AppendSystemPrompt options] else args in
        let args :=
          if 0 <? Z.of_nat (length (AllowedTools options))
          then args ++ ["--allowedTools"; Join (AllowedTools options) ","] else args in
        let args :=
          if 0 <? MaxTurns options
          then args ++ ["--max-turns"; pretty (MaxTurns options)] else args in
        let args :=
          if 0 <? Z.of_nat (length (DisallowedTools options))
          then args ++ ["--disallowedTools"; Join (DisallowedTools options) ","]
          else args in
        let args :=
          if negb (String.eqb (Model options) "")
          then args ++ ["--model"; Model options] else args in
        let args :=
          if negb (String.eqb (PermissionPromptToolName options) "")
          then args ++ ["--permission-prompt-tool"; PermissionPromptToolName options]
          else args in
        let args :=
          if negb (String.eqb (PermissionMode options) "")
          then args ++ ["--permission-mode"; PermissionMode options] else args in
        let args :=
          if ContinueConversation options then args ++ ["--continue"] else args in
        let args :=
          if negb (String.eqb (Resume options) "")
          then args ++ ["--resume"; Resume options] else args in
        let args :=
          if 0 <? Z.of_nat (size (McpServers options))
          then
            let configJSON := marshalMcpConfig (McpServers options) in
            args ++ ["--mcp-config"; configJSON]
          else args in
        args
    | None => args
    end in
  let args := args ++ ["--print"; prompt] in
  args.

(** [Connect]: the transport as the call leaves it, and the error. The
    command carries the name it was built with; [Start] resolves it. *)
Definition Connect (os : OS) (t : SubprocessTransport) (options : option QueryOptions)
    (prompt : string) : SubprocessTransport * option error :=
  let resolved :=
    if String.eqb (cliPath t) "" then
      match cli.FindCLI os with
      | Ok path => Ok path
      | Err err => Err err
      end
    else Ok (cliPath t) in
  match resolved with
  | Err err => (t, Some err)
  | Ok cliPath =>
      let args := buildCommand options prompt in
      let c := {| exec.Path := cliPath; exec.Args := cliPath :: args; exec.Dir := "";
                  exec.Env := []; exec.Process := None |} in
      let t := {| cliPath := cliPath; cwd := cwd t; cmd := Some c;
                  stdin := stdin t; stdout := stdout t; stderr := stderr t |} in
      let checked :=
        if negb (String.eqb (cwd t) "") then
          match Stat os (cwd t) with
          | StatError err =>
              Err (NewCLIConnectionError
                     ("Working directory does not exist: " +:+ cwd t) (Some err))
          | FileInfo _ => Ok (cwd t)
          end
        else Ok "" in
      match checked with
      | Err err => (t, Some err)
      | Ok dir =>
          let c := {| exec.Path := exec.Path c; exec.Args := exec.Args c; exec.Dir := dir;
                      exec.Env := Environ os ++ ["CLAUDE_CODE_ENTRYPOINT=sdk-go";
                                            "FORCE_COLOR=0"; "NODE_ENV=production"];
                      exec.Process := None |} in
          let t := {| cliPath := cliPath; cwd := cwd t; cmd := Some c;
                      stdin := stdin t; stdout := stdout t; stderr := stderr t |} in
          match StdinPipe os with
          | Some err =>
              ({| cliPath := cliPath; cwd := cwd t; cmd := Some c;
                  stdin := false; stdout := stdout t; stderr := stderr t |},
               Some (NewCLIConnectionError "failed to create stdin pipe" (Some err)))
          | None =>
          match StdoutPipe os with
          | Some err =>
              ({| cliPath := cliPath; cwd := cwd t; cmd := Some c;
                  stdin := true; stdout := None; stderr := stderr t |},
               Some (NewCLIConnectionError "failed to create stdout pipe" (Some err)))
          | None =>
          match StderrPipe os with
          | Some err =>
              ({| cliPath := cliPath; cwd := cwd t; cmd := Some c;
                  stdin := true; stdout := Some {| lines := []; failure := None |};
                  stderr := None |},
               Some (NewCLIConnectionError "failed to create stderr pipe" (Some err)))
          | None =>
          let pipe := {| lines := []; failure := None |} in
          match Start os c with
          | inl err =>
              ({| cliPath := cliPath; cwd := cwd t; cmd := Some c;
                  stdin := true; stdout := Some pipe; stderr := Some pipe |},
               Some (if String.eqb (Base cliPath) "claude"
                     then NewCLINotFoundError cliPath (Some err)
                     else NewProcessError "failed to start CLI process" 0 "" (Some err)))
          | inr process =>
              ({| cliPath := cliPath; cwd := cwd t;
                  cmd := Some {| exec.Path := exec.Path c; exec.Args := exec.Args c;
                                 exec.Dir := exec.Dir c; exec.Env := exec.Env c;
                                 exec.Process := Some process |};
                  stdin := true; stdout := Some (Stdout process);
                  stderr := Some (Stderr process) |},
               None)
          end end end end
      end
  end.

(** One turn of the read loop, after the cancellation check: the line
    is passed over, or one message is sent for it. *)
Definition handleLine (text : string) : line_action :=
  let line := TrimSpace text in
  if String.eqb line "" then Continue
  else if maxBufferSize <? len line then
    Send (NewUserMessage
            ("JSON message exceeded maximum buffer size of "
             +:+ pretty maxBufferSize +:+ " bytes"))
  else
    match json_Unmarshal line with
    | UnmarshalError _ => Continue
    | Unmarshalled data =>
        let isControlResponse :=
          match assert_string (index (default ∅ data) "type") with
          | Some messageType => String.eqb messageType "control_response"
          | None => false
          end in
        if isControlResponse then Continue
        else
          match parser.ParseMessage data with
          | Err err => Send (NewUserMessage ("Parse error: " +:+ Error err))
          | Ok message => Send message
          end
    end.

(** [for scanner.Scan() { ... }] over the tokens the scanner yields. *)
Fixpoint readLoop (ctx : Context) (tokens : list string) (messageCh : list Message)
    : loop_end :=
  match tokens with
  | [] => Exhausted ctx messageCh
  | text :: rest =>
      let '(done, ctx) := Done ctx in
      if done then Returned messageCh
      else
        match handleLine text with
        | Continue => readLoop ctx rest messageCh
        | Send m =>
            match send ctx messageCh m with
            | Some (ctx, messageCh) => readLoop ctx rest messageCh
            | None => Returned messageCh
            end
        end
  end.

(** The collection loop of [handleProcessCompletion] over the lines the
    stderr goroutine passes on; [None] when it returns on cancellation.
    When several cases of the [select] are ready, cancellation is taken
    first, then the timer. *)
Fixpoint collectStderr (ctx : Context) (timer : option nat) (stderrChan : list string)
    (stderrLines : list string) (stderrSize : Z) : option (Context * list string) :=
  let '(done, ctx) := Done ctx in
  if done then None
  else
    match timer with
    | Some O =>
        Some (ctx, stderrLines
                     ++ ["[stderr collection timed out after " +:+ stderrTimeout +:+ "]"])
    | _ =>
        match stderrChan with
        | [] => Some (ctx, stderrLines)
        | line :: rest =>
            let lineSize := len line in
            if maxStderrSize <? stderrSize + lineSize then
              Some (ctx, stderrLines
                           ++ ["[stderr truncated after " +:+ pretty stderrSize
                               +:+ " bytes]"])
            else
              collectStderr ctx (Nat.pred <$> timer) rest
                (stderrLines ++ [line]) (stderrSize + lineSize)
        end
    end.

(** The exit code [handleProcessCompletion] derives from [cmd.Wait]. *)
Definition exitCodeOf (w : wait_result) : Z :=
  let exitCode := 0 in
  match w with
  | WaitNil => exitCode
  | WaitExitError sys =>
      match sys with
      | Some status => ExitStatus status
      | None => exitCode
      end
  | WaitOtherError _ => -1
  end.

(** [t.cmd.Process], nil before the command has started. *)
Definition processOf (c : option exec.Cmd) : option Process :=
  match c with
  | Some c => exec.Process c
  | None => None
  end.

(** [t.cmd.Wait()]. *)
Definition waitOf (c : option exec.Cmd) : wait_result :=
  match processOf c with
  | Some p => Wait p
  | None => WaitOtherError "exec: not started"
  end.

(** When the collection timer fires, counted in lines received. *)
Definition timerOf (c : option exec.Cmd) : option nat :=
  match processOf c with
  | Some p => stderrTimer p
  | None => None
  end.

Definition handleProcessCompletion (ctx : Context) (t : SubprocessTransport)
    (messageCh : list Message) : list Message :=
  let collected :=
    match stderr t with
    | Some r =>
        collectStderr ctx (timerOf (cmd t))
          (scanLines (lines r) (failure r)).1 [] 0
    | None => Some (ctx, [])
    end in
  match collected with
  | None => messageCh
  | Some (ctx, stderrLines) =>
      let exitCode := exitCodeOf (waitOf (cmd t)) in
      let stderrOutput := Join stderrLines newline in
      if negb (exitCode =? 0) then
        let errorMsg :=
          NewUserMessage ("Process failed with exit code " +:+ pretty exitCode
                          +:+ ": " +:+ stderrOutput) in
        match send ctx messageCh errorMsg with
        | Some (_, messageCh) => messageCh
        | None => messageCh
        end
      else messageCh
  end.

(** The goroutine of [ReceiveMessages]: everything it sends on the
    channel before the channel is closed. *)
Definition receive (ctx : Context) (t : SubprocessTransport) : list Message :=
  match stdout t with
  | None => []
  | Some r =>
      let '(tokens, scanErr) := scanLines (lines r) (failure r) in
      match readLoop ctx tokens [] with
      | Returned messageCh => messageCh
      | Exhausted ctx messageCh =>
          match scanErr with
          | Some err =>
              match send ctx messageCh (NewUserMessage ("Scanner error: " +:+ err)) with
              | Some (ctx, messageCh) => handleProcessCompletion ctx t messageCh
              | None => messageCh
              end
          | None => handleProcessCompletion ctx t messageCh
          end
      end
  end.

Definition ReceiveMessages (ctx : Context) (t : SubprocessTransport)
    : result (list Message) :=
  match cmd t with
  | None => Err (NewCLIConnectionError "not connected" None)
  | Some _ => Ok (receive ctx t)
  end.

End Transport.

(** What tearing a transport down meets: the error of each [Close], the
    error of [Process.Signal(os.Interrupt)], and whether the process is
    gone within the five seconds [cleanup] allows it. *)
Record Teardown := {
  closeStdin : option string;
  closeStdout : option string;
  closeStderr : option string;
  signalError : option string;
  exitsInTime : bool
}.

(** What [cleanup] does to the pipes and to the process, in order. *)
Inductive action :=
| CloseStdin | CloseStdout | CloseStderr
| SignalInterrupt | WaitProcess | KillProcess.

(** [err != nil && firstErr == nil]: the first error is kept. *)
Definition keepFirst (firstErr err : option string) : option string :=
  match err, firstErr with
  | Some _, None => err
  | _, _ => firstErr
  end.

(** [cleanup]: the transport as it leaves it, the error it returns and
    what it did. *)
Definition cleanup (env : Teardown) (t : SubprocessTransport)
    : SubprocessTransport * option string * list action :=
  let firstErr : option string := None in
  let actions : list action := [] in
  let '(stdin', firstErr, actions) :=
    if stdin t then (false, keepFirst firstErr (closeStdin env), actions ++ [CloseStdin])
    else (stdin t, firstErr, actions) in
  let '(stdout', firstErr, actions) :=
    match stdout t with
    | Some _ => (None, keepFirst firstErr (closeStdout env), actions ++ [CloseStdout])
    | None => (stdout t, firstErr, actions)
    end in
  let '(stderr', firstErr, actions) :=
    match stderr t with
    | Some _ => (None, keepFirst firstErr (closeStderr env), actions ++ [CloseStderr])
    | None => (stderr t, firstErr, actions)
    end in
  let '(cmd', actions) :=
    match cmd t with
    | Some c =>
        match exec.Process c with
        | Some _ =>
            match signalError env with
            | None =>
                if exitsInTime env then (None, actions ++ [SignalInterrupt; WaitProcess])
                else (None, actions ++ [SignalInterrupt; WaitProcess; KillProcess])
            | Some _ => (None, actions ++ [SignalInterrupt; KillProcess; WaitProcess])
            end
        | None => (cmd t, actions)
        end
    | None => (cmd t, actions)
    end in
  ({| cliPath := cliPath t; cwd := cwd t; cmd := cmd';
      stdin := stdin'; stdout := stdout'; stderr := stderr' |},
   firstErr, actions).

Definition Disconnect (env : Teardown) (t : SubprocessTransport)
    : SubprocessTransport * option string * list action :=
  cleanup env t.

End transport.

(** ** Package claudecode *)

Module claudecode.
Import types errors.

Record Client := { cliPath : string; cwd : string }.

Definition NewClient (options : option ClientOptions) : Client :=
  let client := {| cliPath := ""; cwd := "" |} in
  match options with
  | Some options =>
      let client :=
        if negb (String.eqb (CLIPath options) "")
        then {| cliPath := CLIPath options; cwd := cwd client |} else client in
      let client :=
        if negb (String.eqb (ClientCWD options) "")
        then {| cliPath := cliPath client; cwd := ClientCWD options |} else client in
      client
  | None => client
  end.

(** The forwarding goroutine of [Client.Query]. *)
Fixpoint forward (ctx : Context) (messageCh wrappedCh : list Message) : list Message :=
  match messageCh with
  | [] => wrappedCh
  | message :: rest =>
      match transport.send ctx wrappedCh message with
      | Some (ctx, wrappedCh) => forward ctx rest wrappedCh
      | None => wrappedCh
      end
  end.

Section Query.
Context `{GoRuntime}.

(** [Client.Query]: the error, or what the returned channel delivers.
    [ctx] is the context as the transport goroutine observes it,
    [ctx'] as the forwarding goroutine does. *)
Definition Query (os : OS) (ctx ctx' : Context) (c : Client) (prompt : string)
    (options : option QueryOptions) : result (list Message) :=
  let transport := transport.NewSubprocessTransport (cliPath c) (cwd c) in
  let internalOptions := options in
  match transport.Connect os transport internalOptions prompt with
  | (_, Some err) => Err err
  | (transport, None) =>
      match transport.ReceiveMessages ctx transport with
      | Err err => Err err
      | Ok messageCh => Ok (forward ctx' messageCh [])
      end
  end.
End Query.
End claudecode.

(** ** The behaviour the specification describes

    Definitions written from the specification's wording, to be compared
    with the functions above. *)

Module spec.
Import types errors.

Definition stringField (data : gmap string any) (k : string) : option string :=
  match data !! k with Some (Str s) => Some s | _ => None end.

Definition boolField (data : gmap string any) (k : string) : option bool :=
  match data !! k with Some (Bool b) => Some b | _ => None end.

Definition floatField (data : gmap string any) (k : string) : option float64 :=
  match data !! k with Some (Float64 f) => Some f | _ => None end.

Definition mappingField (data : gmap string any) (k : string)
    : option (gmap string any) :=
  match data !! k with Some (Map m) => Some m | _ => None end.

(** An array field; the nil slice, which no JSON text decodes to, is
    kept apart. *)
Definition arrayField (data : gmap string any) (k : string) : option (list any) :=
  match data !! k with Some (Slice l) => Some l | _ => None end.

Section Spec.
Context `{GoRuntime}.

(** A numeric field, accepted as integer or float, as an integer. *)
Definition numericField (data : gmap string any) (k : string) : option Z :=
  match data !! k with
  | Some (Int n) | Some (Int64 n) => Some n
  | Some (Float64 f) => Some (int_of_float64 f)
  | _ => None
  end.

(** Result messages: six required fields, three optional ones. *)
Definition resultMessage (data : gmap string any) : option ResultMessage :=
  subtype ← stringField data "subtype";
  durationMs ← numericField data "duration_ms";
  durationAPIMs ← numericField data "duration_api_ms";
  numTurns ← numericField data "num_turns";
  isError ← boolField data "is_error";
  sessionID ← stringField data "session_id";
  Some {| Subtype := subtype; DurationMs := durationMs;
          DurationAPIMs := durationAPIMs; IsError := isError;
          NumTurns := numTurns; SessionID := sessionID;
          TotalCostUSD := floatField data "total_cost_usd";
          Usage := mappingField data "usage";
          Result := stringField data "result" |}.
End Spec.

(** User messages: the three payload shapes. *)
Definition nestedString (data : gmap string any) : option string :=
  message ← mappingField data "message"; stringField message "content".

Definition nestedArray (data : gmap string any) : option (list any) :=
  message ← mappingField data "message";
  match message !! "content" with
  | Some (Slice l) => Some l
  | Some NilSlice => Some []
  | _ => None
  end.

Definition topLevelString (data : gmap string any) : option string :=
  stringField data "content".

(** The string content of a block, if it is a [tool_result] block with one. *)
Definition toolResultString (block : any) : option string :=
  match block with
  | Map m =>
      match stringField m "type" with
      | Some ty => if decide (ty = "tool_result") then stringField m "content" else None
      | None => None
      end
  | _ => None
  end.

Definition placeholder : string := "[Tool result message]".

Definition userText (data : gmap string any) : option string :=
  match nestedString data with
  | Some s => Some s
  | None =>
      match nestedArray data with
      | Some blocks => Some (default placeholder (head (omap toolResultString blocks)))
      | None => topLevelString data
      end
  end.

(** Assistant messages: where the content array is taken from. *)
Definition contentArray (data : gmap string any) : option (list any) :=
  match mappingField data "message" ≫= (λ message, arrayField message "content") with
  | Some blocks => Some blocks
  | None => arrayField data "content"
  end.

(** The block an element of the content array stands for. *)
Inductive block_of : any -> ContentBlock -> Prop :=
| block_text m text :
    stringField m "type" = Some "text" ->
    stringField m "text" = Some text ->
    block_of (Map m) (NewTextBlock text)
| block_tool_use m id name input :
    stringField m "type" = Some "tool_use" ->
    stringField m "id" = Some id ->
    stringField m "name" = Some name ->
    mappingField m "input" = Some input ->
    block_of (Map m) (NewToolUseBlock id name input)
| block_tool_result m toolUseID :
    stringField m "type" = Some "tool_result" ->
    stringField m "tool_use_id" = Some toolUseID ->
    block_of (Map m)
      (NewToolResultBlock toolUseID (default Nil (m !! "content")) (boolField m "is_error")).

(** What makes an element of the content array a block. *)
Definition well_formed_block (v : any) : Prop :=
  ∃ m, v = Map m
       ∧ ((stringField m "type" = Some "text"
           ∧ is_Some (stringField m "text"))
          ∨ (stringField m "type" = Some "tool_use"
             ∧ is_Some (stringField m "id")
             ∧ is_Some (stringField m "name")
             ∧ is_Some (mappingField m "input"))
          ∨ (stringField m "type" = Some "tool_result"
             ∧ is_Some (stringField m "tool_use_id"))).

(** A number that is not negative and fits an [int]. *)
Definition nonNegative (v : any) : Prop :=
  match v with
  | Int n | Int64 n => 0 ≤ n
  | Float64 (S754_zero _) => True
  | Float64 (S754_finite false m e) =>
      ∃ z, truncate (S754_finite false m e) = Some z ∧ z ≤ maxInt
  | _ => False
  end.

(** An optional flag of the command line. *)
Definition flag (present : Prop) `{Decision present} (args : list string) : list string :=
  if decide present then args else [].

Section CommandLine.
Context `{GoRuntime}.

Definition commandLine (o : QueryOptions) (prompt : string) : list string :=
  ["--output-format"; "stream-json"; "--verbose"]
  ++ flag (SystemPrompt o ≠ "") ["--system-prompt"; SystemPrompt o]
  ++ flag (AppendSystemPrompt o ≠ "") ["--append-system-prompt"; AppendSystemPrompt o]
  ++ flag (AllowedTools o ≠ []) ["--allowedTools"; Join (AllowedTools o) ","]
  ++ flag (0 < MaxTurns o) ["--max-turns"; pretty (MaxTurns o)]
  ++ flag (DisallowedTools o ≠ []) ["--disallowedTools"; Join (DisallowedTools o) ","]
  ++ flag (Model o ≠ "") ["--model"; Model o]
  ++ flag (PermissionPromptToolName o ≠ "")
          ["--permission-prompt-tool"; PermissionPromptToolName o]
  ++ flag (PermissionMode o ≠ "") ["--permission-mode"; PermissionMode o]
  ++ flag (ContinueConversation o = true) ["--continue"]
  ++ flag (Resume o ≠ "") ["--resume"; Resume o]
  ++ flag (McpServers o ≠ ∅)
          ["--mcp-config";
           "{" +:+ json_quote "mcpServers" +:+ ":"
               +:+ transport.marshalMcpServers (McpServers o) +:+ "}"]
  ++ ["--print"; prompt].
End CommandLine.

Section Stream.
Context `{GoRuntime}.

(** What the stream carries for one line of stdout. *)
Definition sent (text : string) : list Message :=
  match transport.handleLine text with
  | transport.Continue => []
  | transport.Send m => [m]
  end.

(** What the stream carries for the whole of stdout: the messages of
    its lines, in their order, then the scanner's error if it has one. *)
Definition stdoutMessages (r : Reader) : list Message :=
  concat (sent <$> (scanLines (lines r) (failure r)).1)
  ++ match (scanLines (lines r) (failure r)).2 with
     | Some err => [NewUserMessage ("Scanner error: " +:+ err)]
     | None => []
     end.
End Stream.

(** Two option records that differ at most in [MaxThinkingTokens],
    [McpTools] and [CWD]. *)
Definition same_invocation_options (o1 o2 : QueryOptions) : Prop :=
  AllowedTools o1 = AllowedTools o2
  ∧ SystemPrompt o1 = SystemPrompt o2
  ∧ AppendSystemPrompt o1 = AppendSystemPrompt o2
  ∧ McpServers o1 = McpServers o2
  ∧ PermissionMode o1 = PermissionMode o2
  ∧ ContinueConversation o1 = ContinueConversation o2
  ∧ Resume o1 = Resume o2
  ∧ MaxTurns o1 = MaxTurns o2
  ∧ DisallowedTools o1 = DisallowedTools o2
  ∧ Model o1 = Model o2
  ∧ PermissionPromptToolName o1 = PermissionPromptToolName o2.

(** [needle] occurs in [s]. *)
Definition contains (s needle : string) : Prop :=
  ∃ before after, s = before +:+ needle +:+ after.

End spec.

(** ** Sample data *)

Module sample.
Import types.

(** The object
    {"type":"result","subtype":"success","duration_ms":1000,
     "duration_api_ms":800,"is_error":false,"num_turns":2,"session_id":"abc"}
    as [json.Unmarshal] decodes it: every number is a [float64]. *)
Definition resultObject : gmap string any :=
  <["type" := Str "result"]>
  (<["subtype" := Str "success"]>
  (<["duration_ms" := Float64 (float64_of_Z 1000)]>
  (<["duration_api_ms" := Float64 (float64_of_Z 800)]>
  (<["is_error" := Bool false]>
  (<["num_turns" := Float64 (float64_of_Z 2)]>
  (<["session_id" := Str "abc"]> ∅)))))).

(** {"type":"assistant","message":{"content":[{"type":"text","text":"hi"}]}} *)
Definition assistantObject : gmap string any :=
  <["type" := Str "assistant"]>
  (<["message" :=
       Map (<["content" :=
                Slice [Map (<["type" := Str "text"]> (<["text" := Str "hi"]> ∅))]]> ∅)]> ∅).

(** {"type":"user","message":{"content":[{"type":"tool_result","content":"done"}]}} *)
Definition userObject : gmap string any :=
  <["type" := Str "user"]>
  (<["message" :=
       Map (<["content" :=
                Slice [Map (<["type" := Str "tool_result"]>
                           (<["content" := Str "done"]> ∅))]]> ∅)]> ∅).

(** {"type":"result","subtype":"success","duration_ms":-5,"duration_api_ms":0,
     "is_error":false,"num_turns":0,"session_id":""} *)
Definition negativeResultObject : gmap string any :=
  <["type" := Str "result"]>
  (<["subtype" := Str "success"]>
  (<["duration_ms" := Float64 (float64_of_Z (-5))]>
  (<["duration_api_ms" := Float64 (float64_of_Z 0)]>
  (<["is_error" := Bool false]>
  (<["num_turns" := Float64 (float64_of_Z 0)]>
  (<["session_id" := Str ""]> ∅)))))).

(** {"type":"control_response"} and {"type":"bogus"} *)
Definition controlObject : gmap string any := <["type" := Str "control_response"]> ∅.
Definition bogusObject : gmap string any := <["type" := Str "bogus"]> ∅.

Definition object (fields : list (string * string)) : string :=
  "{" +:+ Join ((λ kv, dquote +:+ kv.1 +:+ dquote +:+ ":" +:+ kv.2) <$> fields) "," +:+ "}".
Definition quoted (s : string) : string := dquote +:+ s +:+ dquote.

Definition resultLine : string :=
  object [("type", quoted "result"); ("subtype", quoted "success");
          ("duration_ms", "1000"); ("duration_api_ms", "800");
          ("is_error", "false"); ("num_turns", "2"); ("session_id", quoted "abc")].
Definition controlLine : string := object [("type", quoted "control_response")].
Definition bogusLine : string := object [("type", quoted "bogus")].
Definition garbageLine : string := "npm WARN deprecated".

(** A decoder that knows the lines above and the literal null, and
    rejects every other text. *)
Definition decode (line : string) : unmarshal_result :=
  if String.eqb line resultLine then Unmarshalled (Some resultObject)
  else if String.eqb line controlLine then Unmarshalled (Some controlObject)
  else if String.eqb line bogusLine then Unmarshalled (Some bogusObject)
  else if String.eqb line "null" then Unmarshalled None
  else UnmarshalError "invalid character".

(** A runtime for the examples: 64-bit x86 conversions, Unix paths,
    strings quoted without escapes. *)
Definition runtime : GoRuntime :=
  {| json_Unmarshal := decode;
     json_quote := quoted;
     int_of_unrepresentable := λ _, minInt;
     filepath_Join := λ elems, Join elems "/" |}.

Definition options1 : QueryOptions :=
  {| AllowedTools := ["Read"; "Write"]; MaxThinkingTokens := 0;
     SystemPrompt := "be brief"; AppendSystemPrompt := ""; McpTools := [];
     McpServers := ∅; PermissionMode := "acceptEdits";
     ContinueConversation := true; Resume := ""; MaxTurns := 3;
     DisallowedTools := []; Model := ""; PermissionPromptToolName := "";
     CWD := "" |}.

(** [options1] with other values in the three fields the transport ignores. *)
Definition options2 : QueryOptions :=
  {| AllowedTools := ["Read"; "Write"]; MaxThinkingTokens := 8000;
     SystemPrompt := "be brief"; AppendSystemPrompt := ""; McpTools := ["search"];
     McpServers := ∅; PermissionMode := "acceptEdits";
     ContinueConversation := true; Resume := ""; MaxTurns := 3;
     DisallowedTools := []; Model := ""; PermissionPromptToolName := "";
     CWD := "/tmp" |}.

(** A process by what it writes and how it ends; stderr closes before
    the collection timer fires. *)
Definition processOn (stdout stderr : list string) (w : wait_result) : Process :=
  {| Stdout := {| lines := stdout; failure := None |};
     Stderr := {| lines := stderr; failure := None |};
     stderrTimer := None;
     Wait := w |}.

Definition noSuchFile (path : string) : string :=
  "stat " +:+ path +:+ ": no such file or directory".

(** A machine with claude on the PATH and the directory /work, on which
    every command starts and behaves like [p]. *)
Definition machine (p : Process) : OS :=
  {| LookPath := λ file,
       if String.eqb file "claude" then Some "/usr/local/bin/claude" else None;
     UserHomeDir := Some "/home/user";
     Stat := λ path,
       if String.eqb path "/work" then FileInfo true else StatError (noSuchFile path);
     Environ := ["HOME=/home/user"];
     StdinPipe := None; StdoutPipe := None; StderrPipe := None;
     Start := λ _, inr p |}.

(** A machine without claude, node or a home directory, on which no
    command starts. *)
Definition bareMachine : OS :=
  {| LookPath := λ _, None;
     UserHomeDir := None;
     Stat := λ path, StatError (noSuchFile path);
     Environ := [];
     StdinPipe := None; StdoutPipe := None; StderrPipe := None;
     Start := λ c, inl ("fork/exec " +:+ exec.Path c +:+ ": no such file or directory") |}.

(** A transport connected to a process. *)
Definition connected (p : Process) : transport.SubprocessTransport :=
  {| transport.cliPath := "/usr/local/bin/claude"; transport.cwd := "";
     transport.cmd :=
       Some {| exec.Path := "/usr/local/bin/claude";
               exec.Args := ["/usr/local/bin/claude"]; exec.Dir := "";
               exec.Env := []; exec.Process := Some p |};
     transport.stdin := true;
     transport.stdout := Some (Stdout p);
     transport.stderr := Some (Stderr p) |}.

(** A line of [n] bytes. *)
Fixpoint lineOf (n : nat) : string :=
  match n with
  | O => EmptyString
  | S n => String "x"%char (lineOf n)
  end.

End sample.

(** * Properties of the protocol parser *)

Module parser_facts.
Import types errors parser.

Lemma assert_string_index (data : gmap string any) k :
  assert_string (index data k) = spec.stringField data k.
Proof. unfold index, spec.stringField. by destruct (data !! k) as [[]|]. Qed.

Lemma assert_bool_index (data : gmap string any) k :
  assert_bool (index data k) = spec.boolField data k.
Proof. unfold index, spec.boolField. by destruct (data !! k) as [[]|]. Qed.

Lemma assert_map_index (data : gmap string any) k :
  assert_map (index data k) = spec.mappingField data k.
Proof. unfold index, spec.mappingField. by destruct (data !! k) as [[]|]. Qed.

Lemma truncate_in_range `{GoRuntime} f z :
  truncate f = Some z → minInt ≤ z ≤ maxInt → int_of_float64 f = z.
Proof.
  intros Hf [Hlo Hhi]. unfold int_of_float64. rewrite Hf.
  apply Z.leb_le in Hlo, Hhi. by rewrite Hlo, Hhi.
Qed.

(** [truncate] discards the fraction: the result is the integer nearest
    to zero-ward of the float's value [± m * 2^e]. *)
Lemma truncate_toward_zero s m e z :
  truncate (S754_finite s m e) = Some z →
  e < 0 →
  (if s then z ≤ 0 else 0 ≤ z)
  ∧ Z.abs z * 2 ^ (- e) ≤ Z.pos m < (Z.abs z + 1) * 2 ^ (- e).
Proof.
  intros Hz He. simpl in Hz.
  destruct (0 <=? e) eqn:E; [apply Z.leb_le in E; lia|].
  assert (Hp : 0 < 2 ^ (- e)) by (apply Z.pow_pos_nonneg; lia).
  set (a := Z.pos m / 2 ^ (- e)) in *.
  assert (Ha : 0 ≤ a) by (apply Z.div_pos; lia).
  assert (Hb : a * 2 ^ (- e) ≤ Z.pos m < (a + 1) * 2 ^ (- e)).
  { pose proof (Z.mul_div_le (Z.pos m) (2 ^ (- e)) Hp).
    pose proof (Z.mul_succ_div_gt (Z.pos m) (2 ^ (- e)) Hp).
    fold a in H, H0. lia. }
  destruct s; inversion Hz; subst z.
  - split; [lia|]. by rewrite Z.abs_opp, Z.abs_eq.
  - split; [lia|]. by rewrite Z.abs_eq.
Qed.

Section Result.
Context `{GoRuntime}.

Lemma getIntField_numeric (data : gmap string any) k :
  getIntField data k
  = match spec.numericField data k with Some n => (n, true) | None => (0, false) end.
Proof.
  unfold getIntField, spec.numericField. by destruct (data !! k) as [[]|].
Qed.

Lemma parseResultMessage_refines (data : gmap string any) :
  match spec.resultMessage data with
  | Some r => parseResultMessage data = Ok (OfResultMessage r)
  | None => ∃ e, parseResultMessage data = Err e ∧ is_MessageParseError e = true
  end.
Proof.
  unfold parseResultMessage, spec.resultMessage.
  rewrite !assert_string_index, !assert_bool_index, !getIntField_numeric.
  destruct (spec.stringField data "subtype"); simpl; [|eauto].
  destruct (spec.numericField data "duration_ms"); simpl; [|eauto].
  destruct (spec.numericField data "duration_api_ms"); simpl; [|eauto].
  destruct (spec.numericField data "num_turns") eqn:Hn; simpl.
  2:{ destruct (spec.boolField data "is_error"); simpl; eauto. }
  destruct (spec.boolField data "is_error"); simpl; [|eauto].
  destruct (spec.stringField data "session_id"); simpl; [|eauto].
  unfold spec.floatField, spec.mappingField, spec.stringField.
  destruct (data !! "total_cost_usd") as [[]|];
    destruct (data !! "usage") as [[]|];
    destruct (data !! "result") as [[]|]; reflexivity.
Qed.
End Result.
End parser_facts.

Module parser_claims.
Import types errors parser parser_facts.

Section Claims.
Context `{GoRuntime}.

Lemma ParseMessage_result (data : gmap string any) :
  spec.stringField data "type" = Some "result" →
  ParseMessage (Some data) = parseResultMessage data.
Proof.
  intros Hty. unfold ParseMessage. by rewrite assert_string_index, Hty.
Qed.

Lemma ParseMessage_user (data : gmap string any) :
  spec.stringField data "type" = Some "user" →
  ParseMessage (Some data) = parseUserMessage data.
Proof.
  intros Hty. unfold ParseMessage. by rewrite assert_string_index, Hty.
Qed.

Lemma ParseMessage_assistant (data : gmap string any) :
  spec.stringField data "type" = Some "assistant" →
  ParseMessage (Some data) = parseAssistantMessage data.
Proof.
  intros Hty. unfold ParseMessage. by rewrite assert_string_index, Hty.
Qed.

Lemma resultMessage_fields (data : gmap string any) r :
  spec.resultMessage data = Some r →
  spec.stringField data "subtype" = Some (Subtype r)
  ∧ spec.numericField data "duration_ms" = Some (DurationMs r)
  ∧ spec.numericField data "duration_api_ms" = Some (DurationAPIMs r)
  ∧ spec.numericField data "num_turns" = Some (NumTurns r)
  ∧ spec.boolField data "is_error" = Some (IsError r)
  ∧ spec.stringField data "session_id" = Some (SessionID r)
  ∧ TotalCostUSD r = spec.floatField data "total_cost_usd"
  ∧ Usage r = spec.mappingField data "usage"
  ∧ Result r = spec.stringField data "result".
Proof.
  unfold spec.resultMessage.
  destruct (spec.stringField data "subtype"); simpl; [|done].
  destruct (spec.numericField data "duration_ms"); simpl; [|done].
  destruct (spec.numericField data "duration_api_ms"); simpl; [|done].
  destruct (spec.numericField data "num_turns"); simpl; [|done].
  destruct (spec.boolField data "is_error"); simpl; [|done].
  destruct (spec.stringField data "session_id"); simpl; [|done].
  intros [= <-]. simpl. repeat split.
Qed.

(** C3. [Parse] on an object of type result succeeds exactly when
    subtype (string), duration_ms, duration_api_ms, num_turns
    (numeric: an integer as it is, a float truncated), is_error
    (boolean) and session_id (string) are all present with that shape,
    and fails with a parse error otherwise; total_cost_usd (float),
    usage (mapping) and result (string) are attached when present with
    that shape and left out otherwise, never causing a failure. The
    sample object yields exactly its six values and no optional field. *)
Theorem parse_result :
  (∀ data : gmap string any,
     spec.stringField data "type" = Some "result" →
     match spec.resultMessage data with
     | Some r => ParseMessage (Some data) = Ok (OfResultMessage r)
     | None => ∃ e, ParseMessage (Some data) = Err e ∧ is_MessageParseError e = true
     end)
  ∧ (∀ data : gmap string any,
       is_Some (spec.resultMessage data) ↔
       is_Some (spec.stringField data "subtype")
       ∧ is_Some (spec.numericField data "duration_ms")
       ∧ is_Some (spec.numericField data "duration_api_ms")
       ∧ is_Some (spec.numericField data "num_turns")
       ∧ is_Some (spec.boolField data "is_error")
       ∧ is_Some (spec.stringField data "session_id"))
  ∧ (∀ (data : gmap string any) r,
       spec.resultMessage data = Some r →
       spec.stringField data "subtype" = Some (Subtype r)
       ∧ spec.numericField data "duration_ms" = Some (DurationMs r)
       ∧ spec.numericField data "duration_api_ms" = Some (DurationAPIMs r)
       ∧ spec.numericField data "num_turns" = Some (NumTurns r)
       ∧ spec.boolField data "is_error" = Some (IsError r)
       ∧ spec.stringField data "session_id" = Some (SessionID r)
       ∧ TotalCostUSD r = spec.floatField data "total_cost_usd"
       ∧ Usage r = spec.mappingField data "usage"
       ∧ Result r = spec.stringField data "result")
  ∧ (∀ (data : gmap string any) k,
       match data !! k with
       | Some (Int n) | Some (Int64 n) => spec.numericField data k = Some n
       | Some (Float64 f) =>
           ∃ n, spec.numericField data k = Some n
                ∧ ∀ z, truncate f = Some z → minInt ≤ z ≤ maxInt → n = z
       | _ => spec.numericField data k = None
       end)
  ∧ ParseMessage (Some sample.resultObject)
    = Ok (OfResultMessage
            {| Subtype := "success"; DurationMs := 1000; DurationAPIMs := 800;
               IsError := false; NumTurns := 2; SessionID := "abc";
               TotalCostUSD := None; Usage := None; Result := None |}).
Proof.
  split; [|split; [|split; [|split]]].
  - intros data Hty. rewrite (ParseMessage_result data Hty).
    apply parseResultMessage_refines.
  - intros data. unfold spec.resultMessage.
    destruct (spec.stringField data "subtype"),
             (spec.numericField data "duration_ms"),
             (spec.numericField data "duration_api_ms"),
             (spec.numericField data "num_turns"),
             (spec.boolField data "is_error"),
             (spec.stringField data "session_id"); simpl;
      split; intros Hs; repeat split; eauto;
      try (by destruct Hs as [? ?]); by destruct Hs as (?&?&?&?&?&[? ?]);
      repeat match goal with Hx : is_Some None |- _ => by destruct Hx end.
  - exact resultMessage_fields.
  - intros data k. unfold spec.numericField.
    destruct (data !! k) as [[]|]; try done.
    eexists; split; [done|]. intros z Hz Hr. by apply truncate_in_range.
  - rewrite (ParseMessage_result sample.resultObject eq_refl).
    pose proof (parseResultMessage_refines sample.resultObject) as Hr.
    exact Hr.
Qed.
End Claims.

Lemma parse_result_witness :
  spec.stringField sample.resultObject "type" = Some "result"
  ∧ @ParseMessage sample.runtime (Some sample.resultObject)
    = Ok (OfResultMessage
            (NewResultMessage "success" 1000 800 2 false "abc")).
Proof.
  split; [reflexivity|].
  exact (proj1 (@parse_result sample.runtime) sample.resultObject eq_refl).
Defined.
End parser_claims.

Module user_claims.
Import types errors parser parser_facts parser_claims.

Lemma toolResultContent_first (blocks : list any) :
  toolResultContent blocks = head (omap spec.toolResultString blocks).
Proof.
  induction blocks as [|b blocks IH]; [done|].
  simpl. destruct b; simpl; try exact IH.
  rewrite !assert_string_index.
  destruct (spec.stringField m "type") as [ty|]; simpl; [|exact IH].
  destruct (String.eqb_spec ty "tool_result") as [->|Hne].
  - rewrite decide_True by done.
    by destruct (spec.stringField m "content").
  - by rewrite decide_False.
Qed.

Lemma first_some {A B} (f : A → option B) (l : list A) :
  match head (omap f l) with
  | Some y => ∃ before x after,
      l = before ++ x :: after ∧ f x = Some y ∧ Forall (λ x, f x = None) before
  | None => Forall (λ x, f x = None) l
  end.
Proof.
  induction l as [|a l IH]; [constructor|].
  cbn. destruct (f a) as [y|] eqn:Ha; cbn.
  - exists [], a, l. by repeat split.
  - change (list_omap A B f l) with (omap f l).
    destruct (head (omap f l)) as [y|].
    + destruct IH as (before & x & after & Hl & Hx & Hb).
      exists (a :: before), x, after.
      repeat split; [by rewrite Hl|done|by constructor].
    + by constructor.
Qed.

Lemma parseUserMessage_refines (data : gmap string any) :
  match spec.userText data with
  | Some s => parseUserMessage data = Ok (NewUserMessage s)
  | None => ∃ e, parseUserMessage data = Err e ∧ is_MessageParseError e = true
  end.
Proof.
  unfold parseUserMessage, spec.userText, spec.nestedString, spec.nestedArray,
    spec.topLevelString.
  rewrite assert_map_index, assert_string_index.
  destruct (spec.mappingField data "message") as [message|]; simpl.
  - rewrite assert_string_index.
    destruct (spec.stringField message "content") as [s|] eqn:Hs; [done|].
    unfold index, spec.stringField in *.
    destruct (message !! "content") as [[]|]; simpl in *; try discriminate;
      rewrite ?toolResultContent_first;
      try (destruct (head _); reflexivity);
      destruct (data !! "content") as [[]|]; simpl; eauto.
  - destruct (spec.stringField data "content"); eauto.
Qed.

Section Claims.
Context `{GoRuntime}.

(** C5. [Parse] on an object of type user takes the text from the
    nested message.content string; failing that, from the nested
    message.content array (the string content of the first
    tool_result block that has one, or the placeholder when none
    has); failing that, from the top-level content string. It fails,
    with a parse error, exactly when none of the three shapes applies. *)
Theorem parse_user :
  (∀ data : gmap string any,
     spec.stringField data "type" = Some "user" →
     match spec.userText data with
     | Some s => ParseMessage (Some data) = Ok (NewUserMessage s)
     | None => ∃ e, ParseMessage (Some data) = Err e ∧ is_MessageParseError e = true
     end)
  ∧ (∀ data : gmap string any,
       match spec.nestedString data, spec.nestedArray data with
       | Some s, _ => spec.userText data = Some s
       | None, Some blocks =>
           match head (omap spec.toolResultString blocks) with
           | Some s =>
               spec.userText data = Some s
               ∧ ∃ before block after,
                   blocks = before ++ block :: after
                   ∧ spec.toolResultString block = Some s
                   ∧ Forall (λ b, spec.toolResultString b = None) before
           | None =>
               spec.userText data = Some "[Tool result message]"
               ∧ Forall (λ b, spec.toolResultString b = None) blocks
           end
       | None, None => spec.userText data = spec.topLevelString data
       end)
  ∧ (∀ data : gmap string any,
       spec.stringField data "type" = Some "user" →
       (∃ e, ParseMessage (Some data) = Err e) ↔
       spec.nestedString data = None ∧ spec.nestedArray data = None
       ∧ spec.topLevelString data = None).
Proof.
  split; [|split].
  - intros data Hty. rewrite (ParseMessage_user data Hty).
    apply parseUserMessage_refines.
  - intros data. unfold spec.userText.
    destruct (spec.nestedString data); [done|].
    destruct (spec.nestedArray data) as [blocks|]; [|done].
    pose proof (first_some spec.toolResultString blocks) as Hf.
    destruct (head (omap spec.toolResultString blocks)); simpl; by split.
  - intros data Hty. rewrite (ParseMessage_user data Hty).
    pose proof (parseUserMessage_refines data) as Hr.
    unfold spec.userText in Hr.
    destruct (spec.nestedString data).
    { rewrite Hr. split; [intros [? ?]; discriminate|intros (?&?&?); discriminate]. }
    destruct (spec.nestedArray data).
    { rewrite Hr. split; [intros [? ?]; discriminate|intros (?&?&?); discriminate]. }
    destruct (spec.topLevelString data).
    { rewrite Hr. split; [intros [? ?]; discriminate|intros (?&?&?); discriminate]. }
    destruct Hr as (e & -> & _). split; eauto.
Qed.
End Claims.

Lemma parse_user_witness :
  spec.stringField sample.userObject "type" = Some "user"
  ∧ @ParseMessage sample.runtime (Some sample.userObject) = Ok (NewUserMessage "done").
Proof.
  split; [reflexivity|].
  exact (proj1 (@parse_user sample.runtime) sample.userObject eq_refl).
Defined.
End user_claims.

Module assistant_claims.
Import types errors parser parser_facts parser_claims.

Lemma parseContentBlock_block_of (m : gmap string any) b :
  parseContentBlock m = Ok b ↔ spec.block_of (Map m) b.
Proof.
  split.
  - unfold parseContentBlock. rewrite !assert_string_index, assert_map_index.
    destruct (spec.stringField m "type") as [ty|] eqn:Hty; [|done].
    destruct (String.eqb_spec ty "text") as [->|_].
    { destruct (spec.stringField m "text") eqn:?; [|done].
      intros [= <-]. by constructor. }
    destruct (String.eqb_spec ty "tool_use") as [->|_].
    { destruct (spec.stringField m "id") eqn:?; [|done].
      destruct (spec.stringField m "name") eqn:?; [|done].
      destruct (spec.mappingField m "input") eqn:?; [|done].
      intros [= <-]. by constructor. }
    destruct (String.eqb_spec ty "tool_result") as [->|_]; [|done].
    destruct (spec.stringField m "tool_use_id") eqn:?; [|done].
    intros [= <-].
    replace (match m !! "is_error" with
             | Some isErrorVal => assert_bool isErrorVal
             | None => None
             end) with (spec.boolField m "is_error").
    + by constructor.
    + unfold spec.boolField. by destruct (m !! "is_error") as [[]|].
  - inversion 1; subst; unfold parseContentBlock;
      rewrite !assert_string_index, ?assert_map_index;
      repeat match goal with Hx : _ = Some _ |- _ => rewrite Hx; clear Hx end; simpl;
      [done|done|].
    unfold spec.boolField, index. by destruct (m !! "is_error") as [[]|].
Qed.

Lemma parseContentBlock_error (m : gmap string any) e :
  parseContentBlock m = Err e → is_MessageParseError e = true.
Proof.
  unfold parseContentBlock.
  repeat (match goal with
          | |- context [match ?x with Some _ => _ | None => _ end] => destruct x
          | |- context [if ?x then _ else _] => destruct x
          end; simpl); try discriminate; by intros [= <-].
Qed.

Lemma parseBlocks_ok data (l : list any) acc bs :
  parseBlocks data l acc = Ok bs ↔
  ∃ bs', Forall2 spec.block_of l bs' ∧ bs = acc ++ bs'.
Proof.
  revert acc. induction l as [|v l IH]; intros acc; simpl.
  - split.
    + intros [= <-]. exists []. split; [constructor|by rewrite app_nil_r].
    + intros (bs' & Hf & ->). inversion Hf. by rewrite app_nil_r.
  - destruct (assert_map v) as [m|] eqn:Hv.
    + assert (v = Map m) as -> by (by destruct v; inversion Hv).
      destruct (parseContentBlock m) as [b|e] eqn:Hb.
      * rewrite IH. apply parseContentBlock_block_of in Hb. split.
        -- intros (bs' & Hf & ->). exists (b :: bs').
           split; [by constructor|by rewrite <- app_assoc].
        -- intros (bs' & Hf & ->). inversion Hf as [|? b' ? bs'' Hb' Hf']; subst.
           apply parseContentBlock_block_of in Hb, Hb'.
           assert (b' = b) as -> by congruence.
           exists bs''. split; [done|by rewrite <- app_assoc].
      * split; [done|]. intros (bs' & Hf & _). inversion Hf as [|? b' ? ? Hb']; subst.
        apply parseContentBlock_block_of in Hb'. congruence.
    + split; [done|]. intros (bs' & Hf & _). inversion Hf as [|? b' ? ? Hb']; subst.
      inversion Hb'; subst; discriminate.
Qed.

Lemma parseBlocks_error data (l : list any) acc e :
  parseBlocks data l acc = Err e → is_MessageParseError e = true.
Proof.
  revert acc. induction l as [|v l IH]; intros acc; simpl; [done|].
  destruct (assert_map v) as [m|]; [|by intros [= <-]].
  destruct (parseContentBlock m) as [b|e'] eqn:Hb; [apply IH|].
  intros [= <-]. by eapply parseContentBlock_error.
Qed.

Lemma parseAssistantMessage_refines (data : gmap string any) :
  parseAssistantMessage data
  = match spec.contentArray data with
    | None =>
        Err (NewMessageParseError
               "Missing required field 'content' in assistant message" (Map data) None)
    | Some blocks =>
        match parseBlocks data blocks [] with
        | Err err => Err err
        | Ok contentBlocks => Ok (NewAssistantMessage contentBlocks)
        end
    end.
Proof.
  unfold parseAssistantMessage, spec.contentArray, spec.arrayField.
  rewrite assert_map_index.
  destruct (spec.mappingField data "message") as [message|]; simpl.
  - unfold index. destruct (message !! "content") as [[]|]; simpl;
      by destruct (data !! "content") as [[]|].
  - unfold index. by destruct (data !! "content") as [[]|].
Qed.

Lemma block_of_well_formed v :
  (∃ b, spec.block_of v b) ↔ spec.well_formed_block v.
Proof.
  split.
  - intros [b Hb]. inversion Hb; subst; eexists; (split; [done|]); naive_solver.
  - intros (m & -> & [(?&[? ?])|[(?&[? ?]&[? ?]&[? ?])|(?&[? ?])]]);
      eexists; by econstructor.
Qed.

Section Claims.
Context `{GoRuntime}.

(** C6. [Parse] on an object of type assistant takes the content array
    nested under message.content or, failing that, top-level under
    content; it succeeds exactly when every element stands for a block
    (text, tool_use or tool_result, by its type), and then the message
    holds those blocks in the order of the array. It fails with a
    parse error when there is no content array, or when an element is
    not an object, has an unknown block type, or lacks text (text), id,
    name or input (tool_use), or tool_use_id (tool_result). The sample
    object yields one text block holding hi. *)
Theorem parse_assistant :
  (∀ (data : gmap string any) msg,
     spec.stringField data "type" = Some "assistant" →
     ParseMessage (Some data) = Ok msg ↔
     ∃ blocks bs, spec.contentArray data = Some blocks
                  ∧ Forall2 spec.block_of blocks bs
                  ∧ msg = NewAssistantMessage bs)
  ∧ (∀ (data : gmap string any) e,
       spec.stringField data "type" = Some "assistant" →
       ParseMessage (Some data) = Err e → is_MessageParseError e = true)
  ∧ (∀ (data : gmap string any) blocks v,
       spec.stringField data "type" = Some "assistant" →
       spec.contentArray data = Some blocks →
       v ∈ blocks →
       ¬ spec.well_formed_block v →
       ∃ e, ParseMessage (Some data) = Err e)
  ∧ (∀ data : gmap string any,
       spec.stringField data "type" = Some "assistant" →
       spec.contentArray data = None →
       ∃ e, ParseMessage (Some data) = Err e)
  ∧ (∀ v, (∃ b, spec.block_of v b) ↔ spec.well_formed_block v)
  ∧ ParseMessage (Some sample.assistantObject)
    = Ok (NewAssistantMessage [NewTextBlock "hi"]).
Proof.
  assert (Hok : ∀ (data : gmap string any) msg,
     spec.stringField data "type" = Some "assistant" →
     ParseMessage (Some data) = Ok msg ↔
     ∃ blocks bs, spec.contentArray data = Some blocks
                  ∧ Forall2 spec.block_of blocks bs
                  ∧ msg = NewAssistantMessage bs).
  { intros data msg Hty. rewrite (ParseMessage_assistant data Hty).
    rewrite parseAssistantMessage_refines.
    destruct (spec.contentArray data) as [blocks|].
    - destruct (parseBlocks data blocks []) as [bs|e] eqn:Hp.
      + apply parseBlocks_ok in Hp as (bs' & Hf & ->). split.
        * intros [= <-]. by exists blocks, bs'.
        * intros (blocks' & bs & [= <-] & Hf' & ->).
          assert (Hp' : parseBlocks data blocks [] = Ok ([] ++ bs))
            by (apply parseBlocks_ok; eauto).
          assert (Hp'' : parseBlocks data blocks [] = Ok ([] ++ bs'))
            by (apply parseBlocks_ok; eauto).
          rewrite Hp' in Hp''. by inversion Hp''.
      + split; [done|]. intros (blocks' & bs & [= <-] & Hf & _).
        assert (Hp' : parseBlocks data blocks [] = Ok ([] ++ bs))
          by (apply parseBlocks_ok; eauto).
        congruence.
    - split; [done|]. by intros (? & ? & ? & _). }
  split; [exact Hok|]. split; [|split; [|split; [|split]]].
  - intros data e Hty. rewrite (ParseMessage_assistant data Hty).
    rewrite parseAssistantMessage_refines.
    destruct (spec.contentArray data) as [blocks|]; [|by intros [= <-]].
    destruct (parseBlocks data blocks []) as [bs|e'] eqn:Hp; [done|].
    intros [= <-]. by eapply parseBlocks_error.
  - intros data blocks v Hty Hc Hv Hwf.
    destruct (ParseMessage (Some data)) as [msg|e] eqn:Hp; [|eauto].
    apply Hok in Hp as (blocks' & bs & Hc' & Hf & _); [|done].
    rewrite Hc in Hc'. injection Hc' as <-.
    exfalso. apply Hwf, block_of_well_formed.
    apply list_elem_of_lookup in Hv as [i Hi].
    destruct (Forall2_lookup_l _ _ _ _ _ Hf Hi) as (b & _ & Hb). eauto.
  - intros data Hty Hc.
    destruct (ParseMessage (Some data)) as [msg|e] eqn:Hp; [|eauto].
    apply Hok in Hp as (blocks' & bs & Hc' & _); [|done]. congruence.
  - exact block_of_well_formed.
  - apply Hok; [done|].
    exists [Map (<["type" := Str "text"]> (<["text" := Str "hi"]> ∅))],
           [NewTextBlock "hi"].
    split; [done|]. split; [|done].
    constructor; [|constructor]. by constructor.
Qed.
End Claims.

Lemma parse_assistant_witness :
  spec.stringField sample.assistantObject "type" = Some "assistant"
  ∧ ∃ e, @ParseMessage sample.runtime
           (Some (<["type" := Str "assistant"]>
                  (<["content" := Slice [Str "hi"]]> ∅))) = Err e.
Proof.
  split; [reflexivity|].
  refine (proj1 (proj2 (proj2 (@parse_assistant sample.runtime)))
            (<["type" := Str "assistant"]> (<["content" := Slice [Str "hi"]]> ∅))
            [Str "hi"] (Str "hi") eq_refl eq_refl _ _).
  - apply list_elem_of_here.
  - intros (m & Hm & _). discriminate.
Defined.
End assistant_claims.

Module result_claims.
Import types errors parser parser_facts parser_claims user_claims assistant_claims.

Section Claims.
Context `{GoRuntime}.

Lemma ParseMessage_result_inv (data : gmap string any) r :
  ParseMessage (Some data) = Ok (OfResultMessage r) →
  spec.stringField data "type" = Some "result" ∧ spec.resultMessage data = Some r.
Proof.
  unfold ParseMessage. rewrite assert_string_index.
  destruct (spec.stringField data "type") as [ty|]; [|done].
  destruct (String.eqb_spec ty "user") as [->|_].
  { pose proof (parseUserMessage_refines data) as Hr.
    destruct (spec.userText data); [by rewrite Hr|].
    by destruct Hr as (e & -> & _). }
  destruct (String.eqb_spec ty "assistant") as [->|_].
  { rewrite parseAssistantMessage_refines.
    destruct (spec.contentArray data) as [blocks|]; [|done].
    by destruct (parseBlocks data blocks []). }
  destruct (String.eqb_spec ty "system") as [->|_].
  { unfold parseSystemMessage. by destruct (assert_string _). }
  destruct (String.eqb_spec ty "result") as [->|_]; [|done].
  pose proof (parseResultMessage_refines data) as Hr.
  destruct (spec.resultMessage data) as [r'|].
  - rewrite Hr. by intros [= <-].
  - by destruct Hr as (e & -> & _).
Qed.

Lemma numericField_nonNegative (data : gmap string any) k n :
  spec.numericField data k = Some n → spec.nonNegative (index data k) → 0 ≤ n.
Proof.
  unfold spec.numericField, index.
  destruct (data !! k) as [[]|]; simpl; try done; try (by intros [= <-]).
  intros [= <-]. destruct f as [s|s| |[] m e]; try done.
  intros (z & Hz & Hmax).
  assert (0 ≤ z).
  { simpl in Hz. injection Hz as <-. destruct (0 <=? e) eqn:He.
    - apply Z.mul_nonneg_nonneg; [lia|]. apply Z.pow_nonneg; lia.
    - apply Z.div_pos; [lia|]. apply Z.pow_pos_nonneg; lia. }
  rewrite (truncate_in_range (S754_finite false m e) z Hz); [done|].
  unfold minInt. lia.
Qed.

(** C9, as amended. When [Parse] succeeds with a Result message, its
    DurationMs, DurationAPIMs and NumTurns are the integers the
    object's duration_ms, duration_api_ms and num_turns convert to,
    and its SessionID is the object's session_id string, unchanged:
    a number is non-negative when the object's number is non-negative
    and fits an int, and SessionID is empty exactly when the object's
    session_id is. *)
Theorem parsed_result_fields (data : gmap string any) r :
  ParseMessage (Some data) = Ok (OfResultMessage r) →
  spec.numericField data "duration_ms" = Some (DurationMs r)
  ∧ spec.numericField data "duration_api_ms" = Some (DurationAPIMs r)
  ∧ spec.numericField data "num_turns" = Some (NumTurns r)
  ∧ spec.stringField data "session_id" = Some (SessionID r)
  ∧ (spec.nonNegative (index data "duration_ms") → 0 ≤ DurationMs r)
  ∧ (spec.nonNegative (index data "duration_api_ms") → 0 ≤ DurationAPIMs r)
  ∧ (spec.nonNegative (index data "num_turns") → 0 ≤ NumTurns r)
  ∧ (SessionID r = "" ↔ data !! "session_id" = Some (Str "")).
Proof.
  intros Hp. apply ParseMessage_result_inv in Hp as [_ Hr].
  destruct (resultMessage_fields data r Hr) as (_ & Hd & Ha & Hn & _ & Hs & _).
  repeat split;
    [exact Hd|exact Ha|exact Hn|exact Hs
    |exact (numericField_nonNegative data _ _ Hd)
    |exact (numericField_nonNegative data _ _ Ha)
    |exact (numericField_nonNegative data _ _ Hn)| |].
  - intros Hempty. rewrite Hempty in Hs. unfold spec.stringField in Hs.
    by destruct (data !! "session_id") as [[]|]; inversion Hs.
  - intros Hs'. unfold spec.stringField in Hs. rewrite Hs' in Hs. by inversion Hs.
Qed.
End Claims.

Lemma parsed_result_fields_witness :
  @ParseMessage sample.runtime (Some sample.resultObject)
  = Ok (OfResultMessage (NewResultMessage "success" 1000 800 2 false "abc"))
  ∧ 0 ≤ DurationMs (NewResultMessage "success" 1000 800 2 false "abc").
Proof.
  assert (Hp : @ParseMessage sample.runtime (Some sample.resultObject)
               = Ok (OfResultMessage (NewResultMessage "success" 1000 800 2 false "abc")))
    by (vm_compute; reflexivity).
  split; [exact Hp|].
  refine (proj1 (proj2 (proj2 (proj2 (proj2
            (@parsed_result_fields sample.runtime sample.resultObject _ Hp))))) _).
  change (∃ z, truncate (float64_of_Z 1000) = Some z ∧ z ≤ maxInt).
  exists 1000. split; [reflexivity|]. unfold maxInt. lia.
Defined.

(** C9 as stated does not hold: the sample object with a negative
    duration and an empty session id parses into a Result message. *)
Lemma result_invariant_counterexample :
  @ParseMessage sample.runtime (Some sample.negativeResultObject)
  = Ok (OfResultMessage (NewResultMessage "success" (-5) 0 0 false ""))
  ∧ ¬ (∀ (data : gmap string any) r,
         @ParseMessage sample.runtime (Some data) = Ok (OfResultMessage r) →
         0 ≤ DurationMs r ∧ 0 ≤ DurationAPIMs r ∧ 0 ≤ NumTurns r ∧ SessionID r ≠ "").
Proof.
  assert (Hp : @ParseMessage sample.runtime (Some sample.negativeResultObject)
               = Ok (OfResultMessage (NewResultMessage "success" (-5) 0 0 false "")))
    by (vm_compute; reflexivity).
  split; [exact Hp|].
  intros Hall. destruct (Hall _ _ Hp) as (Hneg & _). simpl in Hneg. lia.
Qed.
End result_claims.

(** * Properties of the transport *)

Module command_claims.
Import types errors transport.

Lemma flag_string (args x : list string) s :
  (if negb (String.eqb s "") then args ++ x else args) = args ++ spec.flag (s ≠ "") x.
Proof.
  unfold spec.flag.
  destruct (decide (s ≠ "")) as [Hne|He]; destruct (String.eqb_spec s "") as [Hs|Hs];
    cbn [negb]; try tauto; by rewrite ?app_nil_r.
Qed.

Lemma flag_list (args x : list string) (l : list string) :
  (if 0 <? Z.of_nat (length l) then args ++ x else args) = args ++ spec.flag (l ≠ []) x.
Proof.
  unfold spec.flag.
  destruct (decide (l ≠ [])) as [Hne|He]; destruct l as [|a l];
    cbn [length]; try tauto; try (by rewrite ?app_nil_r).
  exfalso. by apply He.
Qed.

Lemma flag_positive (args x : list string) (n : Z) :
  (if 0 <? n then args ++ x else args) = args ++ spec.flag (0 < n) x.
Proof.
  unfold spec.flag.
  destruct (decide (0 < n)) as [Hp|Hp]; destruct (Z.ltb_spec 0 n);
    try lia; by rewrite ?app_nil_r.
Qed.

Lemma flag_bool (args x : list string) (b : bool) :
  (if b then args ++ x else args) = args ++ spec.flag (b = true) x.
Proof.
  unfold spec.flag.
  destruct (decide (b = true)) as [->|Hb]; [done|].
  destruct b; [done|]. by rewrite app_nil_r.
Qed.

Lemma flag_map {A} (args x : list string) (m : gmap string A) :
  (if 0 <? Z.of_nat (size m) then args ++ x else args) = args ++ spec.flag (m ≠ ∅) x.
Proof.
  unfold spec.flag.
  destruct (decide (m ≠ ∅)) as [Hne|He].
  - assert (size m ≠ 0%nat) by (by rewrite map_size_non_empty_iff).
    destruct (Z.ltb_spec 0 (Z.of_nat (size m))); [done|lia].
  - assert (m = ∅) as -> by (by destruct (decide (m = ∅))).
    rewrite map_size_empty. by rewrite app_nil_r.
Qed.

Section Claims.
Context `{GoRuntime}.

(** C2. For every prompt and every options value, [buildCommand]
    returns --output-format stream-json --verbose, then the optional
    flags in the fixed order --system-prompt, --append-system-prompt,
    --allowedTools, --max-turns, --disallowedTools, --model,
    --permission-prompt-tool, --permission-mode, --continue, --resume,
    --mcp-config, then --print and the prompt. A flag is there, with
    its value, exactly when its field is non-empty (strings, lists,
    maps), true (ContinueConversation) or positive (MaxTurns); lists
    are joined with commas and the value of --mcp-config is the JSON
    object with the one key mcpServers. *)
Theorem buildCommand_layout (prompt : string) (o : QueryOptions) :
  buildCommand (Some o) prompt = spec.commandLine o prompt
  ∧ (∃ optional,
       buildCommand (Some o) prompt
       = ["--output-format"; "stream-json"; "--verbose"] ++ optional
         ++ ["--print"; prompt]
       ∧ optional
         = spec.flag (SystemPrompt o ≠ "") ["--system-prompt"; SystemPrompt o]
           ++ spec.flag (AppendSystemPrompt o ≠ "")
                ["--append-system-prompt"; AppendSystemPrompt o]
           ++ spec.flag (AllowedTools o ≠ [])
                ["--allowedTools"; Join (AllowedTools o) ","]
           ++ spec.flag (0 < MaxTurns o) ["--max-turns"; pretty (MaxTurns o)]
           ++ spec.flag (DisallowedTools o ≠ [])
                ["--disallowedTools"; Join (DisallowedTools o) ","]
           ++ spec.flag (Model o ≠ "") ["--model"; Model o]
           ++ spec.flag (PermissionPromptToolName o ≠ "")
                ["--permission-prompt-tool"; PermissionPromptToolName o]
           ++ spec.flag (PermissionMode o ≠ "")
                ["--permission-mode"; PermissionMode o]
           ++ spec.flag (ContinueConversation o = true) ["--continue"]
           ++ spec.flag (Resume o ≠ "") ["--resume"; Resume o]
           ++ spec.flag (McpServers o ≠ ∅)
                ["--mcp-config"; marshalMcpConfig (McpServers o)])
  ∧ marshalMcpConfig (McpServers o)
    = "{" +:+ json_quote "mcpServers" +:+ ":"
          +:+ marshalMcpServers (McpServers o) +:+ "}".
Proof.
  assert (Hc : buildCommand (Some o) prompt = spec.commandLine o prompt).
  { unfold buildCommand, spec.commandLine. cbv zeta.
    rewrite (flag_map _ _ (McpServers o)), (flag_string _ _ (Resume o)),
      (flag_bool _ _ (ContinueConversation o)), (flag_string _ _ (PermissionMode o)),
      (flag_string _ _ (PermissionPromptToolName o)), (flag_string _ _ (Model o)),
      (flag_list _ _ (DisallowedTools o)), (flag_positive _ _ (MaxTurns o)),
      (flag_list _ _ (AllowedTools o)), (flag_string _ _ (AppendSystemPrompt o)),
      (flag_string _ _ (SystemPrompt o)).
    by rewrite <- !app_assoc. }
  split; [exact Hc|]. split; [|done].
  eexists. split; [|reflexivity].
  rewrite Hc. unfold spec.commandLine. by rewrite <- !app_assoc.
Qed.
End Claims.
End command_claims.

Module connect_claims.
Import types errors transport.

Section Claims.
Context `{GoRuntime}.

Lemma buildCommand_same_options prompt (o1 o2 : QueryOptions) :
  spec.same_invocation_options o1 o2 →
  buildCommand (Some o1) prompt = buildCommand (Some o2) prompt.
Proof.
  intros (Ha & Hs & Hp & Hm & Hpm & Hc & Hr & Ht & Hd & Hmo & Hn).
  unfold buildCommand. by rewrite Ha, Hs, Hp, Hm, Hpm, Hc, Hr, Ht, Hd, Hmo, Hn.
Qed.

Lemma Connect_same_command os t (o1 o2 : option QueryOptions) prompt :
  buildCommand o1 prompt = buildCommand o2 prompt →
  Connect os t o1 prompt = Connect os t o2 prompt.
Proof. intros Hb. unfold Connect. by rewrite Hb. Qed.

Lemma Connect_Dir os t options prompt t' :
  Connect os t options prompt = (t', None) →
  ∃ c, cmd t' = Some c ∧ exec.Dir c = cwd t ∧ cwd t' = cwd t
       ∧ is_Some (exec.Process c).
Proof.
  unfold Connect.
  destruct (if String.eqb (cliPath t) "" then _ else _) as [path|e];
    cbv beta iota zeta; [|intros [=]].
  cbn [cwd cliPath cmd stdin stdout stderr exec.Path exec.Args exec.Dir exec.Env].
  destruct (String.eqb_spec (cwd t) "") as [Hcwd|Hcwd]; cbn [negb]; cbv beta iota.
  - destruct (StdinPipe os); [intros [=]|]. destruct (StdoutPipe os); [intros [=]|].
    destruct (StderrPipe os); [intros [=]|].
    match goal with |- context [Start os ?c] => destruct (Start os c) as [e|p] eqn:Hs end;
      [intros [=]|].
    intros [= <-]. cbn [cmd cwd exec.Dir exec.Process].
    eexists. repeat split; [by rewrite Hcwd|by eexists].
  - destruct (Stat os (cwd t)); cbv beta iota; [intros [=]|].
    destruct (StdinPipe os); [intros [=]|]. destruct (StdoutPipe os); [intros [=]|].
    destruct (StderrPipe os); [intros [=]|].
    match goal with |- context [Start os ?c] => destruct (Start os c) as [e|p] eqn:Hs end;
      [intros [=]|].
    intros [= <-]. cbn [cmd cwd exec.Dir exec.Process].
    eexists. repeat split. by eexists.
Qed.

(** C10. Two option records that differ only in MaxThinkingTokens,
    McpTools and CWD give the same argument list, the same [Connect]
    and the same query; the directory of the started command is the
    one the transport was made with, which [Client.Query] takes from
    the client, never from the options. *)
Theorem ignored_options_do_not_reach_the_subprocess
    (prompt : string) (o1 o2 : QueryOptions) :
  spec.same_invocation_options o1 o2 →
  buildCommand (Some o1) prompt = buildCommand (Some o2) prompt
  ∧ (∀ os t, Connect os t (Some o1) prompt = Connect os t (Some o2) prompt)
  ∧ (∀ os ctx ctx' c,
       claudecode.Query os ctx ctx' c prompt (Some o1)
       = claudecode.Query os ctx ctx' c prompt (Some o2))
  ∧ (∀ os t t',
       Connect os t (Some o1) prompt = (t', None) →
       ∃ c, cmd t' = Some c ∧ exec.Dir c = cwd t)
  ∧ (∀ os c t',
       Connect os (NewSubprocessTransport (claudecode.cliPath c) (claudecode.cwd c))
         (Some o1) prompt = (t', None) →
       ∃ command, cmd t' = Some command ∧ exec.Dir command = claudecode.cwd c).
Proof.
  intros Hsame.
  pose proof (buildCommand_same_options prompt o1 o2 Hsame) as Hb.
  split; [exact Hb|]. split; [|split; [|split]].
  - intros os t. by apply Connect_same_command.
  - intros os ctx ctx' c. unfold claudecode.Query.
    by rewrite (Connect_same_command os _ (Some o1) (Some o2) prompt Hb).
  - intros os t t' Hc. apply Connect_Dir in Hc as (c & Hc & Hd & _). eauto.
  - intros os c t' Hc. apply Connect_Dir in Hc as (cm & Hc & Hd & _). eauto.
Qed.

(** C8, as amended. Once the executable path is known (given to the
    transport, or found by [FindCLI]), [Connect] fails with a
    connection error when a working directory is configured and does
    not exist, and no process has been started; when the pipes are
    made and starting the process fails, [Connect] fails with
    CLINotFoundError if the base name of the path is claude, and
    otherwise with a ProcessError of exit code 0 and empty stderr. *)
Theorem Connect_failures os t options prompt path :
  (if String.eqb (cliPath t) "" then cli.FindCLI os = Ok path else path = cliPath t) →
  (∀ e, cwd t ≠ "" → Stat os (cwd t) = StatError e →
     ∃ t', Connect os t options prompt
           = (t', Some (CLIConnectionError
                          (NewClaudeSDKError
                             ("Working directory does not exist: " +:+ cwd t) (Some e))))
           ∧ processOf (cmd t') = None)
  ∧ (∀ e, (cwd t = "" ∨ ∃ isDir, Stat os (cwd t) = FileInfo isDir) →
       StdinPipe os = None → StdoutPipe os = None → StderrPipe os = None →
       (∀ c, exec.Path c = path → Start os c = inl e) →
       ∃ t' err, Connect os t options prompt = (t', Some err)
         ∧ processOf (cmd t') = None
         ∧ (Base path = "claude" →
            err = CLINotFoundError
                    (NewClaudeSDKError
                       ("Claude Code CLI not found at path: " +:+ path) (Some e)) path)
         ∧ (Base path ≠ "claude" →
            err = ProcessError
                    (NewClaudeSDKError "failed to start CLI process" (Some e)) 0 "")).
Proof.
  intros Hres.
  assert (Hr : (if String.eqb (cliPath t) ""
                then match cli.FindCLI os with Ok p => Ok p | Err err => Err err end
                else Ok (cliPath t)) = Ok path).
  { destruct (String.eqb (cliPath t) ""); [by rewrite Hres|by rewrite Hres]. }
  split.
  - intros e Hcwd Hstat. unfold Connect. rewrite Hr. simpl.
    destruct (String.eqb_spec (cwd t) ""); [done|]. simpl. rewrite Hstat.
    eexists. split; reflexivity.
  - intros e Hcwd Hin Hout Herr Hstart. unfold Connect. rewrite Hr. simpl.
    assert (Hchk : (if negb (String.eqb (cwd t) "")
                    then match Stat os (cwd t) with
                         | StatError err =>
                             Err (NewCLIConnectionError
                                    ("Working directory does not exist: " +:+ cwd t)
                                    (Some err))
                         | FileInfo _ => Ok (cwd t)
                         end
                    else Ok "") = Ok (cwd t)).
    { destruct (String.eqb_spec (cwd t) "") as [->|Hne]; [done|]. simpl.
      destruct Hcwd as [?|[d Hd]]; [done|]. by rewrite Hd. }
    rewrite Hchk, Hin, Hout, Herr. rewrite Hstart by done.
    do 2 eexists. split; [reflexivity|]. split; [done|]. split.
    + intros Hb. apply String.eqb_eq in Hb. by rewrite Hb.
    + intros Hb. apply String.eqb_neq in Hb. by rewrite Hb.
Qed.
End Claims.

Lemma ignored_options_witness :
  spec.same_invocation_options sample.options1 sample.options2
  ∧ @buildCommand sample.runtime (Some sample.options1) "hello"
    = @buildCommand sample.runtime (Some sample.options2) "hello".
Proof.
  assert (Hs : spec.same_invocation_options sample.options1 sample.options2)
    by (repeat split).
  split; [exact Hs|].
  exact (proj1 (@ignored_options_do_not_reach_the_subprocess sample.runtime
                  "hello" sample.options1 sample.options2 Hs)).
Defined.

Lemma Connect_failures_witness :
  ∃ t', @Connect sample.runtime (sample.machine (sample.processOn [] [] WaitNil))
          (NewSubprocessTransport "" "/missing") None "hello"
        = (t', Some (CLIConnectionError
                       (NewClaudeSDKError "Working directory does not exist: /missing"
                          (Some (sample.noSuchFile "/missing")))))
        ∧ processOf (cmd t') = None.
Proof.
  refine (proj1 (@Connect_failures sample.runtime
                   (sample.machine (sample.processOn [] [] WaitNil))
                   (NewSubprocessTransport "" "/missing") None "hello"
                   "/usr/local/bin/claude" _) (sample.noSuchFile "/missing") _ _).
  - reflexivity.
  - discriminate.
  - reflexivity.
Defined.

(** C8 as stated does not hold: with no path given and no claude to be
    found, [Connect] returns the error of [FindCLI] although the
    configured working directory does not exist. *)
Lemma Connect_missing_directory_counterexample :
  Stat sample.bareMachine "/missing" = StatError (sample.noSuchFile "/missing")
  ∧ @Connect sample.runtime sample.bareMachine
      (NewSubprocessTransport "" "/missing") None "hello"
    = (NewSubprocessTransport "" "/missing",
       Some (CLINotFoundError
               (NewClaudeSDKError "Claude Code CLI not found at path: "
                  (Some "$HOME is not defined")) ""))
  ∧ ¬ (∀ os t options prompt,
         cwd t ≠ "" → (∃ e, Stat os t.(cwd) = StatError e) →
         ∃ t' b, @Connect sample.runtime os t options prompt
                 = (t', Some (CLIConnectionError b))).
Proof.
  split; [reflexivity|]. split; [reflexivity|].
  intros Hall.
  destruct (Hall sample.bareMachine (NewSubprocessTransport "" "/missing") None "hello")
    as (t' & b & Hc); [discriminate|by eexists|].
  discriminate Hc.
Qed.
End connect_claims.

Module stream_facts.
Import types errors transport.

Lemma len_nonneg s : 0 ≤ len s.
Proof. unfold len. lia. Qed.

Lemma len_String c s : len (String c s) = 1 + len s.
Proof. unfold len. simpl. lia. Qed.

Lemma len_trimLeft s : len (trimLeft s) ≤ len s.
Proof.
  induction s as [|c s IH]; simpl; [done|].
  destruct (isSpace c); [|done]. rewrite len_String. lia.
Qed.

Lemma len_trimRight s : len (trimRight s) ≤ len s.
Proof.
  induction s as [|c s IH]; simpl; [done|].
  destruct (trimRight s) as [|c' s'].
  - destruct (isSpace c); rewrite !len_String; pose proof (len_nonneg s);
      unfold len in *; simpl in *; lia.
  - rewrite !len_String in *. lia.
Qed.

Lemma len_TrimSpace s : len (TrimSpace s) ≤ len s.
Proof.
  unfold TrimSpace. pose proof (len_trimRight (trimLeft s)).
  pose proof (len_trimLeft s). lia.
Qed.

Lemma len_dropCR s : len (dropCR s) ≤ len s.
Proof.
  induction s as [|c s IH]; simpl; [done|].
  destruct s as [|c' s'].
  - destruct (Ascii.eqb c "013"%char); unfold len; simpl; lia.
  - rewrite (len_String c (dropCR _)), (len_String c (String c' s')). lia.
Qed.

Lemma len_lineOf n : len (sample.lineOf n) = Z.of_nat n.
Proof.
  induction n as [|n IH]; [done|].
  change (sample.lineOf (S n)) with (String "x"%char (sample.lineOf n)).
  rewrite len_String, IH. lia.
Qed.

Lemma scanLines_tokens lines failure text :
  text ∈ (scanLines lines failure).1 → len text < MaxScanTokenSize.
Proof.
  induction lines as [|l lines IH]; simpl; [by intros ?%elem_of_nil|].
  destruct (Z.leb_spec MaxScanTokenSize (len l)) as [|Hlt]; simpl;
    [by intros ?%elem_of_nil|].
  destruct (scanLines lines failure) as [tokens err]. simpl in *.
  intros [->|Hin]%elem_of_cons; [|by apply IH].
  pose proof (len_dropCR l). lia.
Qed.

Lemma scanLines_too_long before line after failure :
  Forall (λ l, len l < MaxScanTokenSize) before →
  MaxScanTokenSize ≤ len line →
  scanLines (before ++ line :: after) failure = (dropCR <$> before, Some ErrTooLong).
Proof.
  intros Hb Hlong. induction Hb as [|l before Hl Hb IH]; simpl.
  - by destruct (Z.leb_spec MaxScanTokenSize (len line)); [|lia].
  - destruct (Z.leb_spec MaxScanTokenSize (len l)); [lia|]. by rewrite IH.
Qed.

Lemma append_assoc (a b c : string) : (a +:+ b) +:+ c = a +:+ b +:+ c.
Proof.
  induction a as [|x a IH]; [done|].
  change (String x ((a +:+ b) +:+ c) = String x (a +:+ b +:+ c)). by rewrite IH.
Qed.

Lemma append_empty (a : string) : a +:+ "" = a.
Proof.
  induction a as [|x a IH]; [done|].
  change (String x (a +:+ "") = String x a). by rewrite IH.
Qed.

Lemma contains_middle a needle b : spec.contains (a +:+ needle +:+ b) needle.
Proof. by exists a, b. Qed.

Lemma contains_end a needle : spec.contains (a +:+ needle) needle.
Proof. exists a, "". by rewrite append_empty. Qed.

(** An exit code is what [ExitStatus] reads back from the wait status
    of a process that exited with it. *)
Lemma ExitStatus_exited code : 0 ≤ code < 256 → ExitStatus (code * 256) = code.
Proof.
  intros Hc. unfold ExitStatus.
  change 127 with (Z.ones 7). rewrite Z.land_ones by lia.
  change 255 with (Z.ones 8). rewrite Z.land_ones by lia.
  rewrite Z.shiftr_div_pow2 by lia.
  change (2 ^ 7) with 128. change (2 ^ 8) with 256.
  replace (code * 256) with ((code * 2) * 128) by lia.
  rewrite Z.mod_mul by lia. simpl.
  replace (code * 2 * 128) with (code * 256) by lia.
  rewrite Z.div_mul by lia. apply Z.mod_small. lia.
Qed.

Section Stream.
Context `{GoRuntime}.

Lemma send_live messageCh m : send None messageCh m = Some (None, messageCh ++ [m]).
Proof. reflexivity. Qed.

Lemma readLoop_turn ctx ctx1 ctx2 text rest messageCh :
  Done ctx = (false, ctx1) → Done ctx1 = (false, ctx2) →
  ∃ ctx', readLoop ctx (text :: rest) messageCh
          = readLoop ctx' rest (messageCh ++ spec.sent text).
Proof.
  intros H1 H2. simpl. rewrite H1. unfold spec.sent.
  destruct (handleLine text) as [|m].
  - exists ctx1. by rewrite app_nil_r.
  - unfold send. rewrite H2. by exists ctx2.
Qed.

Lemma readLoop_live tokens messageCh :
  readLoop None tokens messageCh
  = Exhausted None (messageCh ++ concat (spec.sent <$> tokens)).
Proof.
  revert messageCh. induction tokens as [|text rest IH]; intros messageCh.
  - simpl. by rewrite app_nil_r.
  - destruct (readLoop_turn None None None text rest messageCh) as [ctx' Hturn];
      [done|done|].
    simpl in *. unfold spec.sent in *.
    destruct (handleLine text) as [|m]; simpl.
    + by rewrite IH.
    + rewrite IH. by rewrite <- app_assoc.
Qed.

Lemma collectStderr_live timer stderrChan stderrLines stderrSize :
  ∃ collected,
    collectStderr None timer stderrChan stderrLines stderrSize = Some (None, collected).
Proof.
  revert timer stderrLines stderrSize.
  induction stderrChan as [|line rest IH]; intros timer stderrLines stderrSize; simpl.
  - destruct timer as [[|n]|]; eauto.
  - destruct timer as [[|n]|]; [eauto| |];
      (destruct (maxStderrSize <? stderrSize + len line); [eauto|apply IH]).
Qed.

Lemma collectStderr_all stderrChan stderrLines stderrSize :
  stderrSize + foldr (λ l n, len l + n) 0 stderrChan ≤ maxStderrSize →
  collectStderr None None stderrChan stderrLines stderrSize
  = Some (None, stderrLines ++ stderrChan).
Proof.
  revert stderrLines stderrSize.
  induction stderrChan as [|line rest IH]; intros stderrLines stderrSize; simpl.
  - by rewrite app_nil_r.
  - intros Hsize.
    assert (0 ≤ foldr (λ l n, len l + n) 0 rest).
    { clear. induction rest as [|l rest IH]; simpl; [done|].
      pose proof (len_nonneg l). lia. }
    destruct (Z.ltb_spec maxStderrSize (stderrSize + len line)); [lia|].
    rewrite IH by lia. by rewrite <- app_assoc.
Qed.

(** Without cancellation the goroutine delivers the messages of
    stdout and then, for a non-zero exit code, the diagnostic. *)
Lemma receive_live t r :
  stdout t = Some r →
  ∃ stderrLines,
    match stderr t with
    | Some e =>
        collectStderr None (timerOf (cmd t)) (scanLines (lines e) (failure e)).1 [] 0
        = Some (None, stderrLines)
    | None => stderrLines = []
    end
    ∧ receive None t
      = spec.stdoutMessages r
        ++ (if exitCodeOf (waitOf (cmd t)) =? 0 then []
            else [NewUserMessage
                    ("Process failed with exit code "
                     +:+ pretty (exitCodeOf (waitOf (cmd t)))
                     +:+ ": " +:+ Join stderrLines newline)]).
Proof.
  intros Hout.
  assert (Hc : ∃ stderrLines,
    match stderr t with
    | Some e =>
        collectStderr None (timerOf (cmd t)) (scanLines (lines e) (failure e)).1 [] 0
        = Some (None, stderrLines)
    | None => stderrLines = []
    end).
  { destruct (stderr t) as [e|]; [apply collectStderr_live|by exists []]. }
  destruct Hc as [stderrLines Hc]. exists stderrLines. split; [exact Hc|].
  assert (Hh : ∀ messageCh,
    handleProcessCompletion None t messageCh
    = messageCh
      ++ (if exitCodeOf (waitOf (cmd t)) =? 0 then []
          else [NewUserMessage
                  ("Process failed with exit code "
                   +:+ pretty (exitCodeOf (waitOf (cmd t)))
                   +:+ ": " +:+ Join stderrLines newline)])).
  { intros messageCh. unfold handleProcessCompletion.
    destruct (stderr t) as [e|].
    - rewrite Hc. destruct (exitCodeOf (waitOf (cmd t)) =? 0); simpl;
        [by rewrite app_nil_r|done].
    - subst stderrLines. destruct (exitCodeOf (waitOf (cmd t)) =? 0); simpl;
        [by rewrite app_nil_r|done]. }
  unfold receive, spec.stdoutMessages. rewrite Hout.
  destruct (scanLines (lines r) (failure r)) as [tokens scanErr]. simpl.
  rewrite readLoop_live. cbv beta iota. rewrite app_nil_l.
  destruct scanErr as [err|].
  - rewrite send_live, Hh. by rewrite <- !app_assoc.
  - rewrite Hh. by rewrite app_nil_r.
Qed.
End Stream.
End stream_facts.

Module stream_claims.
Import types errors transport stream_facts.

Section Claims.
Context `{GoRuntime}.

Lemma handleLine_decoded text :
  len text < MaxScanTokenSize →
  TrimSpace text ≠ "" →
  handleLine text
  = match json_Unmarshal (TrimSpace text) with
    | UnmarshalError _ => Continue
    | Unmarshalled data =>
        if bool_decide (spec.stringField (default ∅ data) "type"
                        = Some "control_response")
        then Continue
        else match parser.ParseMessage data with
             | Err err => Send (NewUserMessage ("Parse error: " +:+ Error err))
             | Ok message => Send message
             end
    end.
Proof.
  intros Hfit Hne. unfold handleLine.
  destruct (String.eqb_spec (TrimSpace text) ""); [done|].
  pose proof (len_TrimSpace text).
  destruct (Z.ltb_spec maxBufferSize (len (TrimSpace text))) as [Hbig|_].
  { unfold maxBufferSize, MaxScanTokenSize in *. lia. }
  destruct (json_Unmarshal (TrimSpace text)) as [e|data]; [done|].
  rewrite parser_facts.assert_string_index.
  destruct (spec.stringField (default ∅ data) "type") as [ty|].
  - destruct (String.eqb_spec ty "control_response") as [->|Hty].
    + by rewrite bool_decide_eq_true_2.
    + rewrite bool_decide_eq_false_2; [done|]. by intros [= ->].
  - by rewrite bool_decide_eq_false_2.
Qed.

Lemma handleLine_blank text : TrimSpace text = "" → handleLine text = Continue.
Proof. intros Hb. unfold handleLine. by rewrite Hb. Qed.

(** C1. For every line the scanner hands to the read loop: a line
    that does not decode as JSON is passed over without a message, so
    is an object whose type is control_response, and an object the
    parser rejects becomes a User message carrying the parse error.
    The loop then goes on with the next line unless it finds the
    context cancelled, and without cancellation every later line is
    still handled. *)
Theorem consumed_lines_do_not_end_the_stream (stdout : Reader) (text : string) :
  text ∈ (scanLines (lines stdout) (failure stdout)).1 →
  (∀ e, json_Unmarshal (TrimSpace text) = UnmarshalError e →
     handleLine text = Continue ∧ spec.sent text = [])
  ∧ (∀ data, json_Unmarshal (TrimSpace text) = Unmarshalled (Some data) →
       spec.stringField data "type" = Some "control_response" →
       handleLine text = Continue ∧ spec.sent text = [])
  ∧ (∀ data e,
       TrimSpace text ≠ "" →
       json_Unmarshal (TrimSpace text) = Unmarshalled data →
       spec.stringField (default ∅ data) "type" ≠ Some "control_response" →
       parser.ParseMessage data = Err e →
       handleLine text = Send (NewUserMessage ("Parse error: " +:+ Error e))
       ∧ spec.sent text = [NewUserMessage ("Parse error: " +:+ Error e)])
  ∧ (∀ ctx ctx1 ctx2 rest messageCh,
       Done ctx = (false, ctx1) → Done ctx1 = (false, ctx2) →
       ∃ ctx', readLoop ctx (text :: rest) messageCh
               = readLoop ctx' rest (messageCh ++ spec.sent text))
  ∧ (∀ before after messageCh,
       readLoop None (before ++ text :: after) messageCh
       = Exhausted None
           (messageCh ++ concat (spec.sent <$> before) ++ spec.sent text
            ++ concat (spec.sent <$> after))).
Proof.
  intros Hin. apply scanLines_tokens in Hin.
  assert (Hskip : ∀ a, handleLine text = a → a = Continue → spec.sent text = []).
  { intros a Ha ->. unfold spec.sent. by rewrite Ha. }
  split; [|split; [|split; [|split]]].
  - intros e He.
    assert (handleLine text = Continue); [|by eauto].
    destruct (decide (TrimSpace text = "")) as [Hb|Hb]; [by apply handleLine_blank|].
    by rewrite handleLine_decoded, He.
  - intros data Hd Hty.
    assert (handleLine text = Continue); [|by eauto].
    destruct (decide (TrimSpace text = "")) as [Hb|Hb]; [by apply handleLine_blank|].
    rewrite handleLine_decoded, Hd by done. simpl.
    by rewrite bool_decide_eq_true_2.
  - intros data e Hb Hd Hty Hp.
    assert (Hh : handleLine text = Send (NewUserMessage ("Parse error: " +:+ Error e))).
    { rewrite handleLine_decoded, Hd by done.
      by rewrite bool_decide_eq_false_2, Hp. }
    split; [exact Hh|]. unfold spec.sent. by rewrite Hh.
  - intros ctx ctx1 ctx2 rest messageCh. apply readLoop_turn.
  - intros before after messageCh. rewrite readLoop_live.
    by rewrite fmap_app, concat_app.
Qed.

(** C7. Without cancellation the stream is what stdout gave, followed
    for a non-zero exit code by exactly one User message, the last of
    the stream, whose text holds the exit code and the stderr text
    that was collected; for exit code zero nothing follows. A process
    that exits with code 3 having written boom to stderr ends its
    stream with a message holding 3 and boom. *)
Theorem exit_code_diagnostic :
  (∀ t r,
     stdout t = Some r →
     ∃ stderrLines,
       match stderr t with
       | Some e =>
           collectStderr None (timerOf (cmd t)) (scanLines (lines e) (failure e)).1 [] 0
           = Some (None, stderrLines)
       | None => stderrLines = []
       end
       ∧ let exitCode := exitCodeOf (waitOf (cmd t)) in
         let text := "Process failed with exit code " +:+ pretty exitCode
                     +:+ ": " +:+ Join stderrLines newline in
         (exitCode ≠ 0 →
            receive None t = spec.stdoutMessages r ++ [NewUserMessage text]
            ∧ last (receive None t) = Some (NewUserMessage text)
            ∧ spec.contains text (pretty exitCode)
            ∧ spec.contains text (Join stderrLines newline))
         ∧ (exitCode = 0 → receive None t = spec.stdoutMessages r))
  ∧ (∀ code, 0 ≤ code < 256 → exitCodeOf (WaitExitError (Some (code * 256))) = code)
  ∧ exitCodeOf WaitNil = 0
  ∧ (∀ stderrLines,
       Forall (λ l, len l < MaxScanTokenSize) stderrLines →
       foldr (λ l n, len l + n) 0 (dropCR <$> stderrLines) ≤ maxStderrSize →
       collectStderr None None (scanLines stderrLines None).1 [] 0
       = Some (None, dropCR <$> stderrLines))
  ∧ (let t := sample.connected
                (sample.processOn [] ["boom"] (WaitExitError (Some (3 * 256)))) in
     receive None t = [NewUserMessage "Process failed with exit code 3: boom"]
     ∧ spec.contains "Process failed with exit code 3: boom" "3"
     ∧ spec.contains "Process failed with exit code 3: boom" "boom").
Proof.
  split; [|split; [|split; [|split]]].
  - intros t r Hout. destruct (receive_live t r Hout) as (stderrLines & Hc & Hr).
    exists stderrLines. split; [exact Hc|]. simpl. split.
    + intros Hne. apply Z.eqb_neq in Hne. rewrite Hne in Hr.
      split; [exact Hr|]. split; [by rewrite Hr, last_snoc|]. split.
      * apply contains_middle.
      * rewrite <- !append_assoc. apply contains_end.
    + intros He. apply Z.eqb_eq in He. rewrite He in Hr.
      by rewrite app_nil_r in Hr.
  - intros code Hc. simpl. by apply ExitStatus_exited.
  - reflexivity.
  - intros stderrLines Hfit Hsize.
    assert (Hs : scanLines stderrLines None = (dropCR <$> stderrLines, None)).
    { clear Hsize. induction Hfit as [|l ls Hl Hls IH]; simpl; [done|].
      destruct (Z.leb_spec MaxScanTokenSize (len l)); [lia|]. by rewrite IH. }
    rewrite Hs. simpl. by rewrite collectStderr_all.
  - split; [reflexivity|]. split.
    + by exists "Process failed with exit code ", ": boom".
    + by exists "Process failed with exit code 3: ", "".
Qed.
End Claims.

Lemma consumed_lines_witness :
  let stdout := {| lines := [sample.garbageLine; sample.controlLine;
                             sample.bogusLine; sample.resultLine];
                   failure := None |} in
  sample.bogusLine ∈ (scanLines (lines stdout) (failure stdout)).1
  ∧ @handleLine sample.runtime sample.bogusLine
    = Send (NewUserMessage "Parse error: Unknown message type: bogus").
Proof.
  assert (Hin : sample.bogusLine
                ∈ (scanLines [sample.garbageLine; sample.controlLine;
                              sample.bogusLine; sample.resultLine] None).1).
  { vm_compute. apply list_elem_of_further, list_elem_of_further, list_elem_of_here. }
  split; [exact Hin|].
  refine (proj1 (proj1 (proj2 (proj2
            (@consumed_lines_do_not_end_the_stream sample.runtime
               {| lines := [sample.garbageLine; sample.controlLine;
                            sample.bogusLine; sample.resultLine];
                  failure := None |} sample.bogusLine Hin)))
            (Some sample.bogusObject)
            (NewMessageParseError "Unknown message type: bogus"
               (Map sample.bogusObject) None) _ _ _ _)).
  - discriminate.
  - reflexivity.
  - discriminate.
  - reflexivity.
Defined.

Lemma exit_code_diagnostic_witness :
  let t := sample.connected
             (sample.processOn [sample.resultLine] ["boom"]
                (WaitExitError (Some (3 * 256)))) in
  stdout t = Some {| lines := [sample.resultLine]; failure := None |}
  ∧ @receive sample.runtime None t
    = [OfResultMessage (NewResultMessage "success" 1000 800 2 false "abc");
       NewUserMessage "Process failed with exit code 3: boom"].
Proof.
  split; [reflexivity|].
  destruct (proj1 (@exit_code_diagnostic sample.runtime)
              (sample.connected
                 (sample.processOn [sample.resultLine] ["boom"]
                    (WaitExitError (Some (3 * 256)))))
              {| lines := [sample.resultLine]; failure := None |} eq_refl)
    as (stderrLines & Hc & Hne & _).
  vm_compute in Hc. injection Hc as <-.
  destruct (Hne ltac:(discriminate)) as (Hr & _).
  rewrite Hr. vm_compute. reflexivity.
Defined.
End stream_claims.

Module oversized_claims.
Import types errors transport stream_facts.

Section Facts.
Context `{GoRuntime}.

(** A line longer than [maxBufferSize] never reaches the read loop:
    the scanner stops at it, the stream gets the scanner's error, and
    what follows the line on stdout is not read. *)
Lemma oversized_line_stops_the_scanner t before line after failure :
  stdout t = Some {| lines := before ++ line :: after; failure := failure |} →
  Forall (λ l, len l < MaxScanTokenSize) before →
  maxBufferSize < len line →
  ∃ completion,
    receive None t
    = concat (spec.sent <$> (dropCR <$> before))
      ++ [NewUserMessage "Scanner error: bufio.Scanner: token too long"]
      ++ completion
    ∧ completion = handleProcessCompletion None t []
    ∧ ∀ after', spec.stdoutMessages
                  {| lines := before ++ line :: after'; failure := failure |}
                = spec.stdoutMessages
                    {| lines := before ++ line :: after; failure := failure |}.
Proof.
  intros Hout Hfit Hbig.
  assert (Hlong : MaxScanTokenSize ≤ len line).
  { unfold maxBufferSize, MaxScanTokenSize in *. lia. }
  destruct (receive_live t _ Hout) as (stderrLines & Hc & Hr).
  assert (Hh : handleProcessCompletion None t []
               = if exitCodeOf (waitOf (cmd t)) =? 0 then []
                 else [NewUserMessage
                         ("Process failed with exit code "
                          +:+ pretty (exitCodeOf (waitOf (cmd t)))
                          +:+ ": " +:+ Join stderrLines newline)]).
  { unfold handleProcessCompletion. destruct (stderr t) as [e|].
    - rewrite Hc. by destruct (exitCodeOf (waitOf (cmd t)) =? 0).
    - subst stderrLines. by destruct (exitCodeOf (waitOf (cmd t)) =? 0). }
  eexists. split; [|split; [reflexivity|]].
  - rewrite Hr, Hh. unfold spec.stdoutMessages. simpl.
    rewrite (scanLines_too_long before line after failure Hfit Hlong). simpl.
    by rewrite <- app_assoc.
  - intros after'. unfold spec.stdoutMessages. simpl.
    by rewrite !(scanLines_too_long before line _ failure Hfit Hlong).
Qed.
End Facts.

Lemma oversized_sample_run big :
  maxBufferSize < len big →
  @receive sample.runtime None
    (sample.connected (sample.processOn [big; sample.resultLine] [] WaitNil))
  = [NewUserMessage "Scanner error: bufio.Scanner: token too long"].
Proof.
  intros Hbig.
  destruct (@oversized_line_stops_the_scanner sample.runtime
              (sample.connected (sample.processOn [big; sample.resultLine] [] WaitNil))
              [] big [sample.resultLine] None eq_refl)
    as (completion & Hr & Hc & _); [constructor|done|].
  rewrite Hr, Hc. reflexivity.
Qed.

(** C4 on a concrete run: stdout carries a line of 1 MiB + 1 bytes and
    then a result line, and the process exits with code 0. The stream
    holds the scanner's error and nothing else; the result line, which
    alone on stdout is delivered, is lost. *)
Theorem oversized_line_ends_the_reading :
  len (sample.lineOf (Z.to_nat (maxBufferSize + 1))) = 1024 * 1024 + 1
  ∧ @receive sample.runtime None
      (sample.connected
         (sample.processOn
            [sample.lineOf (Z.to_nat (maxBufferSize + 1)); sample.resultLine] [] WaitNil))
    = [NewUserMessage "Scanner error: bufio.Scanner: token too long"]
  ∧ @receive sample.runtime None
      (sample.connected (sample.processOn [sample.resultLine] [] WaitNil))
    = [OfResultMessage (NewResultMessage "success" 1000 800 2 false "abc")].
Proof.
  assert (Hlen : len (sample.lineOf (Z.to_nat (maxBufferSize + 1))) = 1024 * 1024 + 1).
  { rewrite len_lineOf, Z2Nat.id; [reflexivity|]. unfold maxBufferSize. lia. }
  split; [exact Hlen|]. split; [|vm_compute; reflexivity].
  apply oversized_sample_run. rewrite Hlen. unfold maxBufferSize. lia.
Qed.
End oversized_claims.
